(** * Verbi: voice_assistant/transcription.py

    A shallow embedding of the transcription module: the dispatcher
    [transcribe_audio], the readiness gate [check_fastwhisperapi] with its
    module-level flag, and the five provider adapters.  Everything the
    module reaches outside itself (files, HTTP, SDK clients, the process
    environment) is an oracle of a [world]; every call to one is recorded
    in the trace of the state, so that "no I/O" and "at most one probe" are
    statements about traces. *)

From Stdlib Require Import String Ascii List ZArith NArith Bool Arith Lia.
From Stdlib Require Import Strings.Byte.
Import ListNotations.
Local Open Scope string_scope.
Local Set Warnings "-register-all".

(* ================================================================== *)
(** * Python values and exceptions *)
(* ================================================================== *)

Module Py.

(** What [json.loads] and [response.json()] produce, which is also all
    the module ever returns.  A float keeps its lexeme: the module does
    no arithmetic.  A dict built from JSON has string keys only; it is
    kept as the list of its items, looked up by key. *)
Inductive pyval : Type :=
| PyNone
| PyBool (b : bool)
| PyInt (n : Z)
| PyFloat (lexeme : string)
| PyStr (s : string)
| PyList (xs : list pyval)
| PyDict (items : list (string * pyval)).

(** Classes of the exceptions that reach the module.  All of them derive
    from Python's [Exception], which is the class every [except] clause
    of the module names; [LibraryError] stands for the classes of
    requests, the SDKs, json and litellm (all [Exception] subclasses). *)
Inductive exn_class : Type :=
| Exception
| ValueError
| KeyError
| IndexError
| TypeError
| AttributeError
| OSError
| LibraryError (qualname : string).

(** An exception instance: its class, [str(e)] and [__context__], the
    exception that was being handled when this one was raised. *)
Inductive exn : Type :=
| Exn (cls : exn_class) (str : string) (context : option exn).

Definition exn_class_of (e : exn) : exn_class := match e with Exn cls _ _ => cls end.

Definition exn_str (e : exn) : string := match e with Exn _ str _ => str end.

Definition exn_context (e : exn) : option exn := match e with Exn _ _ context => context end.

(** [cls(msg)]: a new exception has no context. *)
Definition mk_exn (cls : exn_class) (msg : string) : exn := Exn cls msg None.

(** [raise e] inside an [except] clause that handles [handled]: Python
    attaches [handled] to the new exception as its [__context__] (there is
    no [from None] in the module to suppress it).  A bare [raise] re-raises
    [handled] itself and is not this.  Calls into the module are taken to
    be made while the caller handles no exception of its own. *)
Definition during (handled e : exn) : exn :=
  Exn (exn_class_of e) (exn_str e) (Some handled).

Inductive outcome (A : Type) : Type :=
| Returns (a : A)
| Raises (e : exn).
Arguments Returns {A} a.
Arguments Raises {A} e.

(** [repr] of a key as [KeyError] prints it (keys without quotes). *)
Definition repr_str (k : string) : string := "'" ++ k ++ "'".

Definition type_name (v : pyval) : string :=
  match v with
  | PyNone => "NoneType"
  | PyBool _ => "bool"
  | PyInt _ => "int"
  | PyFloat _ => "float"
  | PyStr _ => "str"
  | PyList _ => "list"
  | PyDict _ => "dict"
  end.

Fixpoint dict_lookup (k : string) (items : list (string * pyval)) : option pyval :=
  match items with
  | [] => None
  | (k', v) :: rest => if String.eqb k k' then Some v else dict_lookup k rest
  end.

Definition not_subscriptable {A} (v : pyval) : outcome A :=
  Raises (mk_exn TypeError ("'" ++ type_name v ++ "' object is not subscriptable")).

(** [obj[key]] for a string key. *)
Definition getitem_str (obj : pyval) (key : string) : outcome pyval :=
  match obj with
  | PyDict items =>
      match dict_lookup key items with
      | Some v => Returns v
      | None => Raises (mk_exn KeyError (repr_str key))
      end
  | PyList _ => Raises (mk_exn TypeError "list indices must be integers or slices, not str")
  | PyStr _ => Raises (mk_exn TypeError "string indices must be integers, not 'str'")
  | _ => not_subscriptable obj
  end.

(** [obj[0]].  A dict from JSON has no integer key; a non-empty string
    yields its first character. *)
Definition getitem_0 (obj : pyval) : outcome pyval :=
  match obj with
  | PyList (x :: _) => Returns x
  | PyList [] => Raises (mk_exn IndexError "list index out of range")
  | PyStr (String c _) => Returns (PyStr (String c ""))
  | PyStr EmptyString => Raises (mk_exn IndexError "string index out of range")
  | PyDict _ => Raises (mk_exn KeyError "0")
  | _ => not_subscriptable obj
  end.

(** [obj.get(key, default)]: a dict method; any other value has no
    attribute [get]. *)
Definition get (obj : pyval) (key : string) (default : pyval) : outcome pyval :=
  match obj with
  | PyDict items =>
      match dict_lookup key items with
      | Some v => Returns v
      | None => Returns default
      end
  | _ => Raises (mk_exn AttributeError
                   ("'" ++ type_name obj ++ "' object has no attribute 'get'"))
  end.

Definition opt_bind {A B} (o : option A) (k : A -> option B) : option B :=
  match o with Some a => k a | None => None end.

End Py.
Export Py.

(* ================================================================== *)
(** * base64 (RFC 4648, standard alphabet, padded), as [base64.b64encode] *)
(* ================================================================== *)

Module Base64.

Definition alphabet : list byte :=
  list_byte_of_string
    "ABCDEFGHIJKLMNOPQRSTUVWXYZabcdefghijklmnopqrstuvwxyz0123456789+/".

Definition pad : byte := "="%byte.

(** The character of a 6-bit group. *)
Definition b64char (i : N) : byte := nth (N.to_nat i) alphabet pad.

Fixpoint index_from (i : N) (c : byte) (tbl : list byte) : option N :=
  match tbl with
  | [] => None
  | x :: rest => if Byte.eqb c x then Some i else index_from (N.succ i) c rest
  end.

(** The 6-bit group of a character, [None] outside the alphabet. *)
Definition b64index (c : byte) : option N := index_from 0 c alphabet.

(** Three bytes are 24 bits, cut into four groups of 6; a final group
    of one or two bytes is zero-filled and padded with [=]. *)
Fixpoint b64encode (bs : list byte) : list byte :=
  match bs with
  | [] => []
  | [a] =>
      let x := Byte.to_N a in
      [b64char (x / 4); b64char ((x mod 4) * 16); pad; pad]
  | [a; b] =>
      let x := Byte.to_N a in
      let y := Byte.to_N b in
      [b64char (x / 4); b64char ((x mod 4) * 16 + y / 16);
       b64char ((y mod 16) * 4); pad]
  | a :: b :: c :: rest =>
      let x := Byte.to_N a in
      let y := Byte.to_N b in
      let z := Byte.to_N c in
      b64char (x / 4) :: b64char ((x mod 4) * 16 + y / 16)
        :: b64char ((y mod 16) * 4 + z / 64) :: b64char (z mod 64)
        :: b64encode rest
  end%N.

(** [bytes.decode("utf-8")] on ASCII bytes: one character per byte. *)
Definition decode_utf8 (bs : list byte) : string := string_of_list_byte bs.

(** The decoder of the same format: groups of four characters, padding
    only in the last group. *)
Fixpoint b64decode_bytes (cs : list byte) : option (list byte) :=
  match cs with
  | [] => Some []
  | c1 :: c2 :: c3 :: c4 :: rest =>
      opt_bind (b64index c1) (fun i1 =>
      opt_bind (b64index c2) (fun i2 =>
      if Byte.eqb c4 pad then
        match rest with
        | [] =>
            if Byte.eqb c3 pad then
              opt_bind (Byte.of_N (i1 * 4 + i2 / 16)) (fun a => Some [a])
            else
              opt_bind (b64index c3) (fun i3 =>
              opt_bind (Byte.of_N (i1 * 4 + i2 / 16)) (fun a =>
              opt_bind (Byte.of_N ((i2 mod 16) * 16 + i3 / 4)) (fun b =>
              Some [a; b])))
        | _ :: _ => None
        end
      else
        opt_bind (b64index c3) (fun i3 =>
        opt_bind (b64index c4) (fun i4 =>
        opt_bind (Byte.of_N (i1 * 4 + i2 / 16)) (fun a =>
        opt_bind (Byte.of_N ((i2 mod 16) * 16 + i3 / 4)) (fun b =>
        opt_bind (Byte.of_N ((i3 mod 4) * 64 + i4)) (fun c =>
        opt_bind (b64decode_bytes rest) (fun tl =>
        Some (a :: b :: c :: tl)))))))))
  | _ => None
  end%N.

Definition b64decode (s : string) : option (list byte) :=
  b64decode_bytes (list_byte_of_string s).

End Base64.

(* ================================================================== *)
(** * The outside world and the module's state *)
(* ================================================================== *)

(** [requests.post(endpoint, files=..., data=..., headers=...)]. *)
Record post_request : Type := mk_post {
  post_url : string;
  post_files : list (string * (string * list byte));
  post_data : list (string * pyval);
  post_headers : list (string * string)
}.

(** A [requests] response: its status code and what [.json()] does. *)
Record response : Type := mk_response {
  status_code : Z;
  json : outcome pyval
}.

Inductive sdk : Type := OpenAI | Groq | DeepgramClient.

(** [client.audio.transcriptions.create(model=, file=, language=)]; the
    file is the opened audio file, given by its path and bytes. *)
Record transcription_request : Type := mk_transcription_request {
  tr_model : string;
  tr_file : string * list byte;
  tr_language : string
}.

(** What [create] returns; only its [text] attribute is read. *)
Record transcription : Type := mk_transcription { text : pyval }.

(** [PrerecordedOptions(model=, smart_format=)]. *)
Record prerecorded_options : Type := mk_options {
  po_model : string;
  po_smart_format : bool
}.

(** [litellm.completion(model=, api_key=, messages=)]. *)
Record completion_request : Type := mk_completion {
  cr_model : string;
  cr_api_key : option string;
  cr_messages : pyval
}.

(** One entry per call that leaves the module, in the order made. *)
Inductive event : Type :=
| EvGet (url : string)
| EvPost (req : post_request)
| EvOpen (path : string)
| EvClose (path : string)
| EvReadBytes (path : string)
| EvTranscriptionsCreate (client : sdk) (api_key : option string)
                         (req : transcription_request)
| EvTranscribeFile (api_key : option string) (payload : list (string * list byte))
                   (options : prerecorded_options)
| EvCompletion (req : completion_request)
| EvLogError (msg : string)
| EvPrintExc (e : exn).

(** The collaborators.  Each oracle sees the trace so far, so a service
    may answer differently later in the process.
    - [open_rb]: [open(path, "rb")], a successful open giving the bytes
      that reading the file yields;
    - [read_bytes]: [Path(path).read_bytes()], pathlib's own opening,
      reading and closing of the path it makes of the string;
    - [new_client]: the constructors [OpenAI(api_key=)], [Groq(api_key=)],
      [DeepgramClient(api_key)];
    - [transcribe_file]: [json.loads(response.to_json())] of the Deepgram
      response;
    - [completion]: the [message.content] of each of [response.choices]. *)
Record world : Type := mk_world {
  environ : list event -> string -> option string;
  open_rb : list event -> string -> outcome (list byte);
  read_bytes : list event -> string -> outcome (list byte);
  requests_get : list event -> string -> outcome response;
  requests_post : list event -> post_request -> outcome response;
  new_client : list event -> sdk -> option string -> outcome unit;
  transcriptions_create :
    list event -> sdk -> option string -> transcription_request -> outcome transcription;
  transcribe_file :
    list event -> option string -> list (string * list byte) -> prerecorded_options
    -> outcome pyval;
  completion : list event -> completion_request -> outcome (list pyval)
}.

(** The module-level flag and the trace of the process. *)
Record state : Type := mk_state {
  checked_fastwhisperapi : bool;
  trace : list event
}.

(** [checked_fastwhisperapi = False] at import. *)
Definition init_state : state := mk_state false [].

(* ================================================================== *)
(** * Statements: state passing with exceptions *)
(* ================================================================== *)

(** A statement runs from a state to an outcome and a state; what was
    written before an exception stays written. *)
Definition M (A : Type) : Type := state -> outcome A * state.

Definition ret {A} (a : A) : M A := fun s => (Returns a, s).

Definition raise {A} (e : exn) : M A := fun s => (Raises e, s).

Definition bind {A B} (m : M A) (k : A -> M B) : M B :=
  fun s =>
    match m s with
    | (Returns a, s') => k a s'
    | (Raises e, s') => (Raises e, s')
    end.

(** [try: m  except Exception as e: h e]. *)
Definition try_except {A} (m : M A) (h : exn -> M A) : M A :=
  fun s =>
    match m s with
    | (Returns a, s') => (Returns a, s')
    | (Raises e, s') => h e s'
    end.

(** A call that leaves the module: the oracle answers from the trace so
    far and the event is appended. *)
Definition external {A} (ev : event) (oracle : list event -> outcome A) : M A :=
  fun s => (oracle (trace s),
            mk_state (checked_fastwhisperapi s) (trace s ++ [ev])).

(** A read of the surroundings that is no I/O (constructors, environ). *)
Definition consult {A} (oracle : list event -> A) : M A :=
  fun s => (Returns (oracle (trace s)), s).

Definition lift {A} (o : outcome A) : M A := fun s => (o, s).

Definition emit (ev : event) : M unit :=
  fun s => (Returns tt, mk_state (checked_fastwhisperapi s) (trace s ++ [ev])).

Definition get_checked : M bool :=
  fun s => (Returns (checked_fastwhisperapi s), s).

Definition set_checked (b : bool) : M unit :=
  fun s => (Returns tt, mk_state b (trace s)).

Declare Scope py_scope.
Delimit Scope py_scope with py.
Notation "x <- m ;; k" := (bind m (fun x => k))
  (at level 100, m at next level, right associativity) : py_scope.
Notation "m ;; k" := (bind m (fun _ => k))
  (at level 100, right associativity) : py_scope.
Notation "m >>= k" := (bind m k) (at level 50, left associativity) : py_scope.
Local Open Scope py_scope.

(** [with open(path, "rb") as f: body f]: the file is closed on the way
    out, whether the body returned or raised. *)
Definition with_open {A} (w : world) (path : string) (body : list byte -> M A) : M A :=
  f <- external (EvOpen path) (fun h => open_rb w h path) ;;
  fun s =>
    match body f s with
    | (r, s') => (r, mk_state (checked_fastwhisperapi s') (trace s' ++ [EvClose path]))
    end.

(** colorama's [Fore.RED] and [Fore.RESET]. *)
Definition ESC : ascii := ascii_of_nat 27.
Definition Fore_RED : string := String ESC "[31m".
Definition Fore_RESET : string := String ESC "[39m".

(** [logging.error(msg)]. *)
Definition logging_error (msg : string) : M unit := emit (EvLogError msg).

(** [traceback.print_exc()] while [e] is being handled. *)
Definition traceback_print_exc (e : exn) : M unit := emit (EvPrintExc e).

(* ================================================================== *)
(** * The module *)
(* ================================================================== *)

Section Transcription.

Variable w : world.

Definition fast_url : string := "http://localhost:8000".

Definition not_running : exn := mk_exn Exception "FastWhisperAPI is not running".

(** Check if the FastWhisper API is running. *)
Definition check_fastwhisperapi : M unit :=
  checked <- get_checked ;;
  if negb checked then
    let infopoint := fast_url ++ "/info" in
    try_except
      (response <- external (EvGet infopoint) (fun h => requests_get w h infopoint) ;;
       if negb (status_code response =? 200)%Z then raise not_running else ret tt)
      (fun handled => raise (during handled not_running)) ;;
    set_checked true
  else ret tt.

Definition _transcribe_with_openai (api_key : option string) (audio_file_path : string)
  : M pyval :=
  consult (fun h => new_client w h OpenAI api_key) >>= lift ;;
  transcription <-
    with_open w audio_file_path (fun audio_file =>
      let req := mk_transcription_request "whisper-1" (audio_file_path, audio_file) "en" in
      external (EvTranscriptionsCreate OpenAI api_key req)
               (fun h => transcriptions_create w h OpenAI api_key req)) ;;
  ret (text transcription).

Definition _transcribe_with_groq (api_key : option string) (audio_file_path : string)
  : M pyval :=
  consult (fun h => new_client w h Groq api_key) >>= lift ;;
  transcription <-
    with_open w audio_file_path (fun audio_file =>
      let req := mk_transcription_request "whisper-large-v3" (audio_file_path, audio_file) "ta" in
      external (EvTranscriptionsCreate Groq api_key req)
               (fun h => transcriptions_create w h Groq api_key req)) ;;
  ret (text transcription).

(** [data['results']['channels'][0]['alternatives'][0]['transcript']]. *)
Definition deepgram_transcript (data : pyval) : M pyval :=
  results <- lift (getitem_str data "results") ;;
  channels <- lift (getitem_str results "channels") ;;
  channel <- lift (getitem_0 channels) ;;
  alternatives <- lift (getitem_str channel "alternatives") ;;
  alternative <- lift (getitem_0 alternatives) ;;
  lift (getitem_str alternative "transcript").

Definition _transcribe_with_deepgram (api_key : option string) (audio_file_path : string)
  : M pyval :=
  consult (fun h => new_client w h DeepgramClient api_key) >>= lift ;;
  try_except
    (buffer_data <- with_open w audio_file_path (fun file => ret file) ;;
     let payload := [("buffer", buffer_data)] in
     let options := mk_options "nova-2" true in
     data <- external (EvTranscribeFile api_key payload options)
                      (fun h => transcribe_file w h api_key payload options) ;;
     transcript <- deepgram_transcript data ;;
     ret transcript)
    (fun e =>
       logging_error (Fore_RED ++ "Deepgram transcription error: " ++ exn_str e
                      ++ Fore_RESET) ;;
       raise e).

Definition no_text_found : string := "No text found in the response.".

Definition _transcribe_with_fastwhisperapi (audio_file_path : string) : M pyval :=
  check_fastwhisperapi ;;
  let endpoint := fast_url ++ "/v1/transcriptions" in
  opened <- external (EvOpen audio_file_path) (fun h => open_rb w h audio_file_path) ;;
  let files := [("file", (audio_file_path, opened))] in
  let data := [("model", PyStr "base"); ("language", PyStr "en");
               ("initial_prompt", PyNone); ("vad_filter", PyBool true)] in
  let headers := [("Authorization", "Bearer dummy_api_key")] in
  let req := mk_post endpoint files data headers in
  response <- external (EvPost req) (fun h => requests_post w h req) ;;
  response_json <- lift (json response) ;;
  lift (Py.get response_json "text" (PyStr no_text_found)).

Definition gemini_prompt : string :=
  "Just transcribe the Tamil audio. If no audio is detected, just say '<empty>'.".

Definition data_url_prefix : string := "data:audio/mp3;base64,".

(** The [messages] argument built around the encoded audio. *)
Definition gemini_messages (encoded_data : string) : pyval :=
  PyList
    [PyDict
       [("role", PyStr "user");
        ("content",
          PyList
            [PyDict [("type", PyStr "text"); ("text", PyStr gemini_prompt)];
             PyDict [("type", PyStr "image_url");
                     ("image_url", PyStr (data_url_prefix ++ encoded_data))]])]].

Definition _transcribe_with_gemini (api_key : option string) (audio_file_path : string)
  : M pyval :=
  model <- (env <- consult (fun h => environ w h "GEMINI_MODEL") ;;
            match env with
            | Some v => ret v
            | None => raise (mk_exn KeyError (repr_str "GEMINI_MODEL"))
            end) ;;
  audio_bytes <- external (EvReadBytes audio_file_path)
                          (fun h => read_bytes w h audio_file_path) ;;
  let encoded_data := Base64.decode_utf8 (Base64.b64encode audio_bytes) in
  let req := mk_completion model api_key (gemini_messages encoded_data) in
  choices <- external (EvCompletion req) (fun h => completion w h req) ;;
  match choices with
  | content :: _ => ret content
  | [] => raise (mk_exn IndexError "list index out of range")
  end.

Definition local_placeholder : string := "Transcribed text from local model".

Definition transcription_failed : exn := mk_exn Exception "Error in transcribing audio".

(** The body of the [try] of [transcribe_audio]: the branch chain. *)
Definition dispatch (model : string) (api_key : option string) (audio_file_path : string)
  : M pyval :=
  if String.eqb model "openai" then _transcribe_with_openai api_key audio_file_path
  else if String.eqb model "groq" then _transcribe_with_groq api_key audio_file_path
  else if String.eqb model "deepgram" then _transcribe_with_deepgram api_key audio_file_path
  else if String.eqb model "gemini" then _transcribe_with_gemini api_key audio_file_path
  else if String.eqb model "fastwhisperapi" then _transcribe_with_fastwhisperapi audio_file_path
  else if String.eqb model "local" then ret (PyStr local_placeholder)
  else raise (mk_exn ValueError "Unsupported transcription model").

(** The [except Exception as e] clause of [transcribe_audio]. *)
Definition on_failure (e : exn) : M pyval :=
  logging_error (Fore_RED ++ "Failed to transcribe audio: " ++ exn_str e ++ Fore_RESET) ;;
  traceback_print_exc e ;;
  raise (during e transcription_failed).

(** Transcribe an audio file using the specified model. *)
Definition transcribe_audio (model : string) (api_key : option string)
    (audio_file_path : string) (local_model_path : option string) : M pyval :=
  try_except (dispatch model api_key audio_file_path) on_failure.

End Transcription.

(* ================================================================== *)
(** * Processes: sequences of calls into the module *)
(* ================================================================== *)

(** The identifiers the branch chain of [transcribe_audio] knows. *)
Definition known_providers : list string :=
  ["openai"; "groq"; "deepgram"; "gemini"; "fastwhisperapi"; "local"].

(** The readiness probe is the GET to the info endpoint. *)
Definition is_probe (ev : event) : bool :=
  match ev with
  | EvGet url => String.eqb url (fast_url ++ "/info")
  | _ => false
  end.

Definition probe_event : event := EvGet (fast_url ++ "/info").

Definition probes (t : list event) : nat := List.length (filter is_probe t).

(** A call a client of the module can make. *)
Inductive call : Type :=
| CallCheck
| CallTranscribe (model : string) (api_key : option string) (audio_file_path : string)
                 (local_model_path : option string)
| CallOpenAI (api_key : option string) (audio_file_path : string)
| CallGroq (api_key : option string) (audio_file_path : string)
| CallDeepgram (api_key : option string) (audio_file_path : string)
| CallGemini (api_key : option string) (audio_file_path : string)
| CallFastWhisper (audio_file_path : string).

Definition after {A} (m : M A) (s : state) : state := snd (m s).

Definition exec (w : world) (c : call) : state -> state :=
  match c with
  | CallCheck => after (check_fastwhisperapi w)
  | CallTranscribe model api_key path lmp => after (transcribe_audio w model api_key path lmp)
  | CallOpenAI api_key path => after (_transcribe_with_openai w api_key path)
  | CallGroq api_key path => after (_transcribe_with_groq w api_key path)
  | CallDeepgram api_key path => after (_transcribe_with_deepgram w api_key path)
  | CallGemini api_key path => after (_transcribe_with_gemini w api_key path)
  | CallFastWhisper path => after (_transcribe_with_fastwhisperapi w path)
  end.

(** The states a process goes through, the starting one first. *)
Fixpoint states_of (w : world) (cs : list call) (s : state) : list state :=
  s :: match cs with
       | [] => []
       | c :: rest => states_of w rest (exec w c s)
       end.

(** How often a sequence of flag values goes from false to true, and
    from true to false. *)
Fixpoint rises (bs : list bool) : nat :=
  match bs with
  | b1 :: (b2 :: _) as tl => (if negb b1 && b2 then 1 else 0) + rises tl
  | _ => 0
  end.

Fixpoint falls (bs : list bool) : nat :=
  match bs with
  | b1 :: (b2 :: _) as tl => (if b1 && negb b2 then 1 else 0) + falls tl
  | _ => 0
  end.

(** [n] invocations of [check_fastwhisperapi] in a row, with the outcome
    of each. *)
Fixpoint invoke_check (w : world) (n : nat) (s : state) : list (outcome unit) * state :=
  match n with
  | O => ([], s)
  | S n' =>
      let (r, s1) := check_fastwhisperapi w s in
      let (rs, s2) := invoke_check w n' s1 in
      (r :: rs, s2)
  end.

Definition failed {A} (r : outcome A) : bool :=
  match r with Raises _ => true | Returns _ => false end.

Definition failures {A} (rs : list (outcome A)) : nat := List.length (filter failed rs).

(* ================================================================== *)
(** * Reading responses and requests *)
(* ================================================================== *)

(** A field of a JSON object; nothing else has fields. *)
Definition field (k : string) (v : pyval) : option pyval :=
  match v with
  | PyDict items => dict_lookup k items
  | _ => None
  end.

(** The first element of a JSON array. *)
Definition first (v : pyval) : option pyval :=
  match v with
  | PyList (x :: _) => Some x
  | _ => None
  end.

(** The path results -> channels[0] -> alternatives[0] -> transcript of a
    Deepgram response, present only when every level is. *)
Definition transcript_path (data : pyval) : option pyval :=
  opt_bind (field "results" data) (fun results =>
  opt_bind (field "channels" results) (fun channels =>
  opt_bind (first channels) (fun channel =>
  opt_bind (field "alternatives" channel) (fun alternatives =>
  opt_bind (first alternatives) (fun alternative =>
  field "transcript" alternative))))).

(** The request the FastWhisper adapter posts for an opened file. *)
Definition fastwhisper_request (audio_file_path : string) (opened : list byte)
  : post_request :=
  mk_post (fast_url ++ "/v1/transcriptions")
          [("file", (audio_file_path, opened))]
          [("model", PyStr "base"); ("language", PyStr "en");
           ("initial_prompt", PyNone); ("vad_filter", PyBool true)]
          [("Authorization", "Bearer dummy_api_key")].

Fixpoint strip_prefix (p s : string) : option string :=
  match p with
  | EmptyString => Some s
  | String a p' =>
      match s with
      | String b s' => if Ascii.eqb a b then strip_prefix p' s' else None
      | EmptyString => None
      end
  end.

(** The attachment of a completion request: the [image_url] of the
    second content part of the first message. *)
Definition attachment_of (req : completion_request) : option string :=
  match cr_messages req with
  | PyList (message :: _) =>
      match field "content" message with
      | Some (PyList (_ :: part :: _)) =>
          match field "image_url" part with
          | Some (PyStr url) => Some url
          | _ => None
          end
      | _ => None
      end
  | _ => None
  end.

(** The bytes an attachment carries: the base64 data after the data-URL
    header, decoded. *)
Definition attachment_bytes (req : completion_request) : option (list byte) :=
  opt_bind (attachment_of req) (fun url =>
  opt_bind (strip_prefix data_url_prefix url) Base64.b64decode).

(* ================================================================== *)
(** * Sample worlds *)
(* ================================================================== *)

Definition unreachable_error : exn :=
  mk_exn (LibraryError "requests.exceptions.ConnectionError") "connection refused".

Definition unreachable {A} : outcome A := Raises unreachable_error.

(** Nothing is configured and nothing answers. *)
Definition world_off : world :=
  mk_world (fun _ _ => None)
           (fun _ _ => Raises (mk_exn OSError "No such file or directory"))
           (fun _ _ => Raises (mk_exn OSError "No such file or directory"))
           (fun _ _ => unreachable)
           (fun _ _ => unreachable)
           (fun _ _ _ => Returns tt)
           (fun _ _ _ _ => unreachable)
           (fun _ _ _ _ => unreachable)
           (fun _ _ => unreachable).

(** The local service answers its info endpoint with HTTP 500. *)
Definition world_down : world :=
  mk_world (environ world_off) (open_rb world_off) (read_bytes world_off)
           (fun _ _ => Returns (mk_response 500 (Returns PyNone)))
           (requests_post world_off) (new_client world_off)
           (transcriptions_create world_off) (transcribe_file world_off)
           (completion world_off).

Definition sample_audio : list byte := ["R"; "I"; "F"; "F"; x00; xff; x10]%byte.

Definition deepgram_reply (transcript : pyval) : pyval :=
  PyDict [("metadata", PyDict []);
          ("results",
            PyDict [("channels",
              PyList [PyDict [("alternatives",
                PyList [PyDict [("transcript", transcript);
                                ("confidence", PyFloat "0.98")]])]])])].

(** Every backend answers; the local service replies with [body]. *)
Definition world_up (body : pyval) : world :=
  mk_world (fun _ k => if String.eqb k "GEMINI_MODEL"
                       then Some "gemini/gemini-1.5-flash-002" else None)
           (fun _ _ => Returns sample_audio)
           (fun _ _ => Returns sample_audio)
           (fun _ _ => Returns (mk_response 200 (Returns PyNone)))
           (fun _ _ => Returns (mk_response 200 (Returns body)))
           (fun _ _ _ => Returns tt)
           (fun _ _ _ _ => Returns (mk_transcription (PyStr "hello")))
           (fun _ _ _ _ => Returns (deepgram_reply (PyStr "hello")))
           (fun _ _ => Returns [PyStr "<empty>"]).

(** The local service comes up after the first probe has failed. *)
Definition world_late : world :=
  mk_world (environ world_off) (open_rb (world_up PyNone))
           (read_bytes (world_up PyNone))
           (fun h _ => match h with
                       | [] => unreachable
                       | _ => Returns (mk_response 200 (Returns PyNone))
                       end)
           (requests_post (world_up (PyDict [("text", PyStr "hi there")])))
           (new_client world_off)
           (transcriptions_create world_off) (transcribe_file world_off)
           (completion world_off).

(** Files can be read and the environment is set, but no backend can be
    reached. *)
Definition world_no_backend : world :=
  mk_world (environ (world_up PyNone)) (open_rb (world_up PyNone))
           (read_bytes (world_up PyNone))
           (requests_get world_off) (requests_post world_off)
           (new_client world_off)
           (transcriptions_create world_off) (transcribe_file world_off)
           (completion world_off).

(** Every backend answers and the environment is set, but no file can
    be read. *)
Definition world_no_files : world :=
  mk_world (environ (world_up PyNone)) (open_rb world_off) (read_bytes world_off)
           (requests_get (world_up PyNone)) (requests_post (world_up PyNone))
           (new_client (world_up PyNone))
           (transcriptions_create (world_up PyNone)) (transcribe_file (world_up PyNone))
           (completion (world_up PyNone)).

(** Deepgram answers without [results]. *)
Definition world_bad_reply : world :=
  mk_world (environ (world_up PyNone)) (open_rb (world_up PyNone))
           (read_bytes (world_up PyNone))
           (requests_get world_off) (requests_post world_off)
           (new_client world_off)
           (transcriptions_create world_off)
           (fun _ _ _ _ => Returns (PyDict [("metadata", PyDict [])]))
           (completion world_off).

(** No client can be constructed. *)
Definition world_no_client : world :=
  mk_world (environ (world_up PyNone)) (open_rb (world_up PyNone))
           (read_bytes (world_up PyNone))
           (requests_get world_off) (requests_post world_off)
           (fun _ _ _ => Raises (mk_exn (LibraryError "deepgram.DeepgramApiKeyError")
                                   "Deepgram API key is required"))
           (transcriptions_create world_off) (transcribe_file world_off)
           (completion world_off).

(* ================================================================== *)
(** * Vocabulary of the statements *)
(* ================================================================== *)

Definition is_known (model : string) : bool :=
  existsb (String.eqb model) known_providers.

(** What the [except] clause of [transcribe_audio] writes for [e]. *)
Definition failure_log (e : exn) : list event :=
  [EvLogError (Fore_RED ++ "Failed to transcribe audio: " ++ exn_str e ++ Fore_RESET);
   EvPrintExc e].

(** The [text] field of a response body, or the fallback sentence. *)
Definition text_or_fallback (body : pyval) : pyval :=
  match field "text" body with
  | Some v => v
  | None => PyStr no_text_found
  end.

(** A statement that leaves the flag alone and issues no probe. *)
Definition quiet {A} (m : M A) : Prop :=
  forall s,
    checked_fastwhisperapi (after m s) = checked_fastwhisperapi s
    /\ probes (trace (after m s)) = probes (trace s).

(** A statement that, once the flag is set, keeps it set and issues no
    probe. *)
Definition gate_safe {A} (m : M A) : Prop :=
  forall s,
    checked_fastwhisperapi s = true ->
    checked_fastwhisperapi (after m s) = true
    /\ probes (trace (after m s)) = probes (trace s).

(** The requests that ask a backend for a transcription: the POST to
    the local service and the SDK, Deepgram and litellm calls.  The
    readiness probe is not one of them. *)
Definition is_transcription_request (ev : event) : bool :=
  match ev with
  | EvPost _ | EvTranscriptionsCreate _ _ _ | EvTranscribeFile _ _ _ | EvCompletion _ => true
  | _ => false
  end.

Definition transcription_requests (t : list event) : nat :=
  List.length (filter is_transcription_request t).

(** A statement that adds at most [k] transcription requests to the
    trace (and removes none). *)
Definition sends_at_most {A} (k : nat) (m : M A) : Prop :=
  forall s,
    transcription_requests (trace s) <= transcription_requests (trace (after m s))
    /\ transcription_requests (trace (after m s)) <= transcription_requests (trace s) + k.

(** A statement that always raises, and sends no transcription request. *)
Definition aborts {A} (m : M A) : Prop :=
  forall s,
    failed (fst (m s)) = true
    /\ transcription_requests (trace (after m s)) = transcription_requests (trace s).

(** Whether the info endpoint, asked after the history [h], answers 200. *)
Definition answers_200 (w : world) (h : list event) : bool :=
  match requests_get w h (fast_url ++ "/info") with
  | Returns r => (status_code r =? 200)%Z
  | Raises _ => false
  end.

(** What the [except] clause of [check_fastwhisperapi] catches when the
    probe made after [h] is not answered with 200: the exception of the
    GET, or the one raised for the status. *)
Definition probe_failure (w : world) (h : list event) : exn :=
  match requests_get w h (fast_url ++ "/info") with
  | Returns _ => not_running
  | Raises e => e
  end.

(** What the [except] clause of [_transcribe_with_deepgram] writes. *)
Definition deepgram_log (e : exn) : event :=
  EvLogError (Fore_RED ++ "Deepgram transcription error: " ++ exn_str e ++ Fore_RESET).

(** The world in which the file at [path] can be opened neither by
    [open(path, "rb")] nor by [Path(path).read_bytes()]. *)
Definition unreadable (w : world) (path : string) : Prop :=
  forall h, failed (open_rb w h path) = true /\ failed (read_bytes w h path) = true.

(* ================================================================== *)
(** * Facts about base64 *)
(* ================================================================== *)

Module Base64Facts.
Import Base64.
Local Open Scope N_scope.

Ltac divmod_lia := zify; Z.to_euclidean_division_equations; lia.

Lemma below_64_cases (P : N -> Prop) :
  (forall n : nat, In n (seq 0 64) -> P (N.of_nat n)) ->
  forall i, i < 64 -> P i.
Proof.
  intros H i Hi. rewrite <- (N2Nat.id i). apply H.
  apply in_seq. lia.
Qed.

Lemma b64index_b64char i : i < 64 -> b64index (b64char i) = Some i.
Proof.
  revert i. apply below_64_cases.
  assert (Hall : forallb (fun n => match b64index (b64char (N.of_nat n)) with
                                   | Some j => N.eqb j (N.of_nat n)
                                   | None => false
                                   end) (seq 0 64) = true) by (vm_compute; reflexivity).
  intros n Hn. rewrite forallb_forall in Hall. specialize (Hall n Hn).
  destruct (b64index (b64char (N.of_nat n))) as [j|]; [|discriminate].
  apply N.eqb_eq in Hall. now subst.
Qed.

Lemma b64char_not_pad i : i < 64 -> Byte.eqb (b64char i) pad = false.
Proof.
  revert i. apply below_64_cases.
  assert (Hall : forallb (fun n => negb (Byte.eqb (b64char (N.of_nat n)) pad))
                         (seq 0 64) = true) by (vm_compute; reflexivity).
  intros n Hn. rewrite forallb_forall in Hall. specialize (Hall n Hn).
  now apply negb_true_iff in Hall.
Qed.

Lemma b64char_ascii i : i < 64 -> Byte.to_N (b64char i) < 128.
Proof.
  revert i. apply below_64_cases.
  assert (Hall : forallb (fun n => N.ltb (Byte.to_N (b64char (N.of_nat n))) 128)
                         (seq 0 64) = true) by (vm_compute; reflexivity).
  intros n Hn. rewrite forallb_forall in Hall. specialize (Hall n Hn).
  now apply N.ltb_lt in Hall.
Qed.

Lemma byte_lt_256 (b : byte) : Byte.to_N b < 256.
Proof. pose proof (Byte.to_N_bounded b). lia. Qed.

Lemma of_N_byte (b : byte) (n : N) : n = Byte.to_N b -> Byte.of_N n = Some b.
Proof. intros ->. apply Byte.of_to_N. Qed.

(** Lists three elements at a time. *)
Lemma list_ind3 {A} (P : list A -> Prop) :
  P [] -> (forall a, P [a]) -> (forall a b, P [a; b]) ->
  (forall a b c rest, P rest -> P (a :: b :: c :: rest)) ->
  forall l, P l.
Proof.
  intros H0 H1 H2 H3.
  assert (Hall : forall l, P l /\ (forall a, P (a :: l)) /\ (forall a b, P (a :: b :: l))).
  { induction l as [|x l (IH0 & IH1 & IH2)].
    - repeat split; auto.
    - repeat split; auto. }
  intro l. apply Hall.
Qed.

Lemma decode_full_group i1 i2 i3 i4 rest :
  i1 < 64 -> i2 < 64 -> i3 < 64 -> i4 < 64 ->
  b64decode_bytes (b64char i1 :: b64char i2 :: b64char i3 :: b64char i4 :: rest) =
  opt_bind (Byte.of_N (i1 * 4 + i2 / 16)) (fun a =>
  opt_bind (Byte.of_N ((i2 mod 16) * 16 + i3 / 4)) (fun b =>
  opt_bind (Byte.of_N ((i3 mod 4) * 64 + i4)) (fun c =>
  opt_bind (b64decode_bytes rest) (fun tl => Some (a :: b :: c :: tl))))).
Proof.
  intros H1 H2 H3 H4. cbn [b64decode_bytes].
  rewrite !b64index_b64char, b64char_not_pad by assumption.
  reflexivity.
Qed.

Lemma decode_two_byte_group i1 i2 i3 :
  i1 < 64 -> i2 < 64 -> i3 < 64 ->
  b64decode_bytes [b64char i1; b64char i2; b64char i3; pad] =
  opt_bind (Byte.of_N (i1 * 4 + i2 / 16)) (fun a =>
  opt_bind (Byte.of_N ((i2 mod 16) * 16 + i3 / 4)) (fun b => Some [a; b])).
Proof.
  intros H1 H2 H3. cbn [b64decode_bytes].
  rewrite !b64index_b64char, b64char_not_pad by assumption.
  reflexivity.
Qed.

Lemma decode_one_byte_group i1 i2 :
  i1 < 64 -> i2 < 64 ->
  b64decode_bytes [b64char i1; b64char i2; pad; pad] =
  opt_bind (Byte.of_N (i1 * 4 + i2 / 16)) (fun a => Some [a]).
Proof.
  intros H1 H2. cbn [b64decode_bytes].
  rewrite !b64index_b64char by assumption.
  reflexivity.
Qed.

(** Decoding what [b64encode] produced gives the bytes back. *)
Lemma b64decode_bytes_b64encode (bs : list byte) :
  b64decode_bytes (b64encode bs) = Some bs.
Proof.
  induction bs as [|a|a b|a b c rest IH] using list_ind3.
  - reflexivity.
  - pose proof (byte_lt_256 a).
    cbn [b64encode]. rewrite decode_one_byte_group by divmod_lia.
    rewrite (of_N_byte a) by divmod_lia. reflexivity.
  - pose proof (byte_lt_256 a). pose proof (byte_lt_256 b).
    cbn [b64encode]. rewrite decode_two_byte_group by divmod_lia.
    rewrite (of_N_byte a), (of_N_byte b) by divmod_lia. reflexivity.
  - pose proof (byte_lt_256 a). pose proof (byte_lt_256 b). pose proof (byte_lt_256 c).
    cbn [b64encode]. rewrite decode_full_group by divmod_lia.
    rewrite (of_N_byte a), (of_N_byte b), (of_N_byte c) by divmod_lia.
    cbn [opt_bind]. rewrite IH. reflexivity.
Qed.

(** [b64encode] emits ASCII only, so decoding it as UTF-8 keeps the bytes. *)
Lemma b64encode_ascii (bs : list byte) :
  Forall (fun c => Byte.to_N c < 128) (b64encode bs).
Proof.
  assert (Hpad : Byte.to_N pad < 128) by (vm_compute; reflexivity).
  induction bs as [|a|a b|a b c rest IH] using list_ind3.
  - constructor.
  - pose proof (byte_lt_256 a).
    cbn [b64encode]. repeat constructor; try assumption; apply b64char_ascii; divmod_lia.
  - pose proof (byte_lt_256 a). pose proof (byte_lt_256 b).
    cbn [b64encode]. repeat constructor; try assumption; apply b64char_ascii; divmod_lia.
  - pose proof (byte_lt_256 a). pose proof (byte_lt_256 b). pose proof (byte_lt_256 c).
    cbn [b64encode]. repeat (constructor; [apply b64char_ascii; divmod_lia|]). exact IH.
Qed.

Lemma b64decode_b64encode (bs : list byte) :
  b64decode (decode_utf8 (b64encode bs)) = Some bs.
Proof.
  unfold b64decode, decode_utf8.
  rewrite list_byte_of_string_of_list_byte. apply b64decode_bytes_b64encode.
Qed.

(** The length Python's encoder gives: four characters per started group
    of three bytes. *)
Lemma b64encode_length (bs : list byte) :
  N.of_nat (List.length (b64encode bs)) = 4 * ((N.of_nat (List.length bs) + 2) / 3).
Proof.
  induction bs as [|a|a b|a b c rest IH] using list_ind3; try reflexivity.
  cbn [b64encode List.length]. divmod_lia.
Qed.

Lemma b64encode_man : b64encode ["M"; "a"; "n"]%byte = ["T"; "W"; "F"; "u"]%byte.
Proof. reflexivity. Qed.

Lemma b64encode_padded :
  decode_utf8 (b64encode ["M"; "a"]%byte) = "TWE="%string
  /\ decode_utf8 (b64encode ["M"]%byte) = "TQ=="%string.
Proof. split; reflexivity. Qed.

End Base64Facts.

(* ================================================================== *)
(** * Facts about statements *)
(* ================================================================== *)

Section StatementFacts.

Context {A B : Type}.

Lemma probes_snoc t ev : probes (t ++ [ev]) = probes t + (if is_probe ev then 1 else 0).
Proof.
  unfold probes. rewrite filter_app, length_app. cbn [filter].
  destruct (is_probe ev); reflexivity.
Qed.

Lemma after_eq (m : M A) s r s' : m s = (r, s') -> after m s = s'.
Proof. unfold after. now intros ->. Qed.

Lemma quiet_ret (a : A) : quiet (ret a).
Proof. intro s. split; reflexivity. Qed.

Lemma quiet_raise e : quiet (@raise A e).
Proof. intro s. split; reflexivity. Qed.

Lemma quiet_lift (o : outcome A) : quiet (lift o).
Proof. intro s. split; reflexivity. Qed.

Lemma quiet_consult (oracle : list event -> A) : quiet (consult oracle).
Proof. intro s. split; reflexivity. Qed.

Lemma quiet_external ev (oracle : list event -> outcome A) :
  is_probe ev = false -> quiet (external ev oracle).
Proof.
  intros Hev s. unfold after, external. cbn [snd checked_fastwhisperapi trace].
  rewrite probes_snoc, Hev. split; [reflexivity | lia].
Qed.

Lemma quiet_bind (m : M A) (k : A -> M B) :
  quiet m -> (forall a, quiet (k a)) -> quiet (bind m k).
Proof.
  intros Hm Hk s. specialize (Hm s). unfold after, bind in *.
  destruct (m s) as [[a|e] s1]; cbn [snd] in *.
  - specialize (Hk a s1). unfold after in Hk.
    destruct Hk as [Hc Hp]. rewrite Hc, Hp. exact Hm.
  - exact Hm.
Qed.

Lemma quiet_try_except (m : M A) (h : exn -> M A) :
  quiet m -> (forall e, quiet (h e)) -> quiet (try_except m h).
Proof.
  intros Hm Hh s. specialize (Hm s). unfold after, try_except in *.
  destruct (m s) as [[a|e] s1]; cbn [snd] in *.
  - exact Hm.
  - specialize (Hh e s1). unfold after in Hh.
    destruct Hh as [Hc Hp]. rewrite Hc, Hp. exact Hm.
Qed.

Lemma quiet_gate_safe (m : M A) : quiet m -> gate_safe m.
Proof.
  intros Hm s Hs. destruct (Hm s) as [Hc Hp]. rewrite Hc. auto.
Qed.

Lemma gate_safe_bind (m : M A) (k : A -> M B) :
  gate_safe m -> (forall a, gate_safe (k a)) -> gate_safe (bind m k).
Proof.
  intros Hm Hk s Hs. specialize (Hm s Hs). unfold after, bind in *.
  destruct (m s) as [[a|e] s1]; cbn [snd] in *.
  - destruct Hm as [Hc Hp]. specialize (Hk a s1 Hc). unfold after in Hk.
    destruct Hk as [Hc' Hp']. split; congruence.
  - exact Hm.
Qed.

Lemma gate_safe_try_except (m : M A) (h : exn -> M A) :
  gate_safe m -> (forall e, gate_safe (h e)) -> gate_safe (try_except m h).
Proof.
  intros Hm Hh s Hs. specialize (Hm s Hs). unfold after, try_except in *.
  destruct (m s) as [[a|e] s1]; cbn [snd] in *.
  - exact Hm.
  - destruct Hm as [Hc Hp]. specialize (Hh e s1 Hc). unfold after in Hh.
    destruct Hh as [Hc' Hp']. split; congruence.
Qed.

End StatementFacts.

Lemma quiet_emit ev : is_probe ev = false -> quiet (emit ev).
Proof.
  intros Hev s. unfold after, emit. cbn [snd checked_fastwhisperapi trace].
  rewrite probes_snoc, Hev. split; [reflexivity | lia].
Qed.

Lemma quiet_with_open {A} w path (body : list byte -> M A) :
  (forall f, quiet (body f)) -> quiet (with_open w path body).
Proof.
  intros Hbody. unfold with_open. apply quiet_bind.
  - intro s. unfold after, external. cbn [snd checked_fastwhisperapi trace].
    rewrite probes_snoc. cbn [is_probe]. split; [reflexivity | lia].
  - intros f s. specialize (Hbody f s). unfold after in *.
    destruct (body f s) as [r s1]. cbn [snd checked_fastwhisperapi trace] in *.
    rewrite probes_snoc. cbn [is_probe]. destruct Hbody as [Hc Hp].
    split; [exact Hc | lia].
Qed.

Create HintDb quiet.
#[local] Hint Resolve quiet_ret quiet_raise quiet_lift quiet_consult quiet_external
  quiet_emit quiet_bind quiet_try_except quiet_with_open : quiet.
#[local] Hint Extern 1 (is_probe _ = false) => reflexivity : quiet.
#[local] Hint Extern 2 (quiet (match ?x with _ => _ end)) => destruct x : quiet.
#[local] Hint Unfold logging_error traceback_print_exc : quiet.

Ltac quiet_steps := intros; autounfold with quiet; eauto 20 with quiet.

(* ================================================================== *)
(** * The readiness gate *)
(* ================================================================== *)

Section Gate.

Variable w : world.

(** The three ways an invocation of [check_fastwhisperapi] can go: the
    flag is set and nothing happens; the probe is answered with 200 and
    the flag is set; the probe fails and the flag stays unset. *)
Lemma check_fastwhisperapi_cases s :
  (checked_fastwhisperapi s = true
   /\ check_fastwhisperapi w s = (Returns tt, s))
  \/ (checked_fastwhisperapi s = false
      /\ check_fastwhisperapi w s
         = (Returns tt, mk_state true (trace s ++ [probe_event])))
  \/ (checked_fastwhisperapi s = false
      /\ check_fastwhisperapi w s
         = (Raises (during (probe_failure w (trace s)) not_running),
            mk_state false (trace s ++ [probe_event]))).
Proof.
  destruct s as [[|] t].
  - left. split; reflexivity.
  - right. unfold check_fastwhisperapi, probe_failure, bind, try_except, external,
      get_checked, set_checked, probe_event. cbn.
    destruct (requests_get w t _) as [[code body]|e]; cbn.
    + destruct (code =? 200)%Z; cbn; [left | right]; split; reflexivity.
    + right. split; reflexivity.
Qed.

Lemma check_fastwhisperapi_gate_safe : gate_safe (check_fastwhisperapi w).
Proof.
  intros s Hs. unfold after.
  destruct (check_fastwhisperapi_cases s) as [[_ ->]|[[Hf _]|[Hf _]]]; [|congruence..].
  split; [exact Hs | reflexivity].
Qed.

Lemma openai_quiet api_key path : quiet (_transcribe_with_openai w api_key path).
Proof. unfold _transcribe_with_openai. quiet_steps. Qed.

Lemma groq_quiet api_key path : quiet (_transcribe_with_groq w api_key path).
Proof. unfold _transcribe_with_groq. quiet_steps. Qed.

Lemma deepgram_quiet api_key path : quiet (_transcribe_with_deepgram w api_key path).
Proof. unfold _transcribe_with_deepgram, deepgram_transcript. quiet_steps. Qed.

Lemma gemini_quiet api_key path : quiet (_transcribe_with_gemini w api_key path).
Proof. unfold _transcribe_with_gemini. quiet_steps. Qed.

Lemma fastwhisperapi_gate_safe path : gate_safe (_transcribe_with_fastwhisperapi w path).
Proof.
  unfold _transcribe_with_fastwhisperapi.
  apply gate_safe_bind; [apply check_fastwhisperapi_gate_safe|].
  intros _. apply quiet_gate_safe. quiet_steps.
Qed.

Lemma dispatch_gate_safe model api_key path : gate_safe (dispatch w model api_key path).
Proof.
  unfold dispatch.
  repeat match goal with
         | |- gate_safe (if ?b then _ else _) => destruct b
         end;
    auto using fastwhisperapi_gate_safe, quiet_gate_safe, openai_quiet, groq_quiet,
      deepgram_quiet, gemini_quiet, quiet_ret, quiet_raise.
Qed.

Lemma transcribe_audio_gate_safe model api_key path lmp :
  gate_safe (transcribe_audio w model api_key path lmp).
Proof.
  unfold transcribe_audio. apply gate_safe_try_except; [apply dispatch_gate_safe|].
  intro e. apply quiet_gate_safe. unfold on_failure. quiet_steps.
Qed.

Lemma exec_gate_safe c s :
  checked_fastwhisperapi s = true ->
  checked_fastwhisperapi (exec w c s) = true
  /\ probes (trace (exec w c s)) = probes (trace s).
Proof.
  destruct c; cbn [exec].
  - apply check_fastwhisperapi_gate_safe.
  - apply transcribe_audio_gate_safe.
  - apply quiet_gate_safe, openai_quiet.
  - apply quiet_gate_safe, groq_quiet.
  - apply quiet_gate_safe, deepgram_quiet.
  - apply quiet_gate_safe, gemini_quiet.
  - apply fastwhisperapi_gate_safe.
Qed.

Lemma states_of_cons cs s : exists tl, states_of w cs s = s :: tl.
Proof. destruct cs; eexists; reflexivity. Qed.

Lemma rises_step b1 b2 l :
  rises (b1 :: b2 :: l) = (if negb b1 && b2 then 1 else 0) + rises (b2 :: l).
Proof. reflexivity. Qed.

Lemma falls_step b1 b2 l :
  falls (b1 :: b2 :: l) = (if b1 && negb b2 then 1 else 0) + falls (b2 :: l).
Proof. reflexivity. Qed.

(** Along a process the flag never falls, and once it is set it does not
    rise again. *)
Lemma flag_monotone cs s :
  falls (map checked_fastwhisperapi (states_of w cs s)) = 0
  /\ rises (map checked_fastwhisperapi (states_of w cs s)) <= 1
  /\ (checked_fastwhisperapi s = true ->
      rises (map checked_fastwhisperapi (states_of w cs s)) = 0).
Proof.
  revert s. induction cs as [|c rest IH]; intro s.
  - cbn. repeat split; lia.
  - destruct (IH (exec w c s)) as (Hfalls & Hrises & Hset).
    cbn [states_of]. destruct (states_of_cons rest (exec w c s)) as [tl Htl].
    rewrite Htl in *. cbn [map] in *. rewrite rises_step, falls_step.
    destruct (checked_fastwhisperapi s) eqn:Hs.
    + destruct (exec_gate_safe c s Hs) as [Hc _]. rewrite Hc in *.
      specialize (Hset eq_refl). cbn [negb andb]. repeat split; lia.
    + destruct (checked_fastwhisperapi (exec w c s)); cbn [negb andb].
      * specialize (Hset eq_refl). repeat split; (lia || discriminate).
      * repeat split; (lia || discriminate).
Qed.

Lemma states_of_gate_safe cs s s' :
  checked_fastwhisperapi s = true ->
  In s' (states_of w cs s) ->
  checked_fastwhisperapi s' = true /\ probes (trace s') = probes (trace s).
Proof.
  revert s. induction cs as [|c rest IH]; intros s Hs Hin.
  - destruct Hin as [<-|[]]. auto.
  - destruct Hin as [<-|Hin]; [auto|].
    destruct (exec_gate_safe c s Hs) as [Hc Hp].
    destruct (IH _ Hc Hin) as [Hc' Hp']. split; congruence.
Qed.

End Gate.

(* ================================================================== *)
(** * The dispatcher *)
(* ================================================================== *)

Section Dispatcher.

Variable w : world.

Lemma emit_twice s e1 e2 :
  mk_state (checked_fastwhisperapi s) ((trace s ++ [e1]) ++ [e2])
  = mk_state (checked_fastwhisperapi s) (trace s ++ [e1; e2]).
Proof. now rewrite <- app_assoc. Qed.

Lemma on_failure_run e s :
  on_failure e s
  = (Raises (during e transcription_failed),
     mk_state (checked_fastwhisperapi s) (trace s ++ failure_log e)).
Proof.
  unfold on_failure, logging_error, traceback_print_exc, bind, emit, raise, failure_log.
  cbn [checked_fastwhisperapi trace]. now rewrite <- app_assoc.
Qed.

(** What the dispatcher hands back is the adapter's value or the
    generic failure raised while handling the adapter's exception, nothing
    else. *)
Lemma transcribe_audio_outcome model api_key path lmp s :
  (exists v, fst (transcribe_audio w model api_key path lmp s) = Returns v
             /\ fst (dispatch w model api_key path s) = Returns v)
  \/ (exists e, fst (transcribe_audio w model api_key path lmp s)
                = Raises (during e transcription_failed)
                /\ fst (dispatch w model api_key path s) = Raises e).
Proof.
  unfold transcribe_audio, try_except.
  destruct (dispatch w model api_key path s) as [[v|e] s1].
  - left. exists v. split; reflexivity.
  - right. exists e. now rewrite on_failure_run.
Qed.

Lemma transcribe_audio_returns model api_key path lmp s v :
  fst (dispatch w model api_key path s) = Returns v ->
  fst (transcribe_audio w model api_key path lmp s) = Returns v.
Proof.
  unfold transcribe_audio, try_except.
  destruct (dispatch w model api_key path s) as [[v'|e] s1]; cbn [fst]; congruence.
Qed.

Lemma transcribe_audio_raises model api_key path lmp s e :
  fst (dispatch w model api_key path s) = Raises e ->
  fst (transcribe_audio w model api_key path lmp s)
  = Raises (during e transcription_failed).
Proof.
  unfold transcribe_audio, try_except.
  destruct (dispatch w model api_key path s) as [[v'|e'] s1]; cbn [fst]; [congruence|].
  intros [= ->]. now rewrite on_failure_run.
Qed.

(** C1, as the code has it: whatever exception [e] the selected adapter
    logic raises, the dispatcher raises an [Exception] with the message
    'Error in transcribing audio': class and message are the same for
    every [e].  The raise is inside the [except] clause, so [e] stays
    attached to the error as its [__context__], and is written to the log. *)
Theorem transcribe_audio_flattens_failures model api_key path lmp s e s1 :
  dispatch w model api_key path s = (Raises e, s1) ->
  transcribe_audio w model api_key path lmp s
  = (Raises (Exn Exception "Error in transcribing audio" (Some e)),
     mk_state (checked_fastwhisperapi s1) (trace s1 ++ failure_log e)).
Proof.
  intros Hbody. unfold transcribe_audio, try_except. rewrite Hbody.
  apply on_failure_run.
Qed.

Lemma is_known_spec model : is_known model = true <-> In model known_providers.
Proof.
  unfold is_known. rewrite existsb_exists. split.
  - intros (k & Hin & Heq). apply String.eqb_eq in Heq. now subst.
  - intros Hin. exists model. split; [assumption | apply String.eqb_refl].
Qed.

(** C2: a provider outside the six known identifiers makes the
    dispatcher raise the generic failure (raised while handling the
    [ValueError] of the last branch); it returns nothing and reaches no
    adapter: the trace gains the two log entries of the handler only. *)
Theorem unknown_provider_raises model api_key path lmp s :
  is_known model = false ->
  transcribe_audio w model api_key path lmp s
  = (Raises (during (mk_exn ValueError "Unsupported transcription model")
               transcription_failed),
     mk_state (checked_fastwhisperapi s)
       (trace s ++ failure_log (mk_exn ValueError "Unsupported transcription model"))).
Proof.
  unfold is_known, known_providers. cbn [existsb]. intros H.
  repeat (apply orb_false_iff in H; destruct H as [? H]).
  unfold transcribe_audio, try_except, dispatch.
  repeat match goal with Heq : String.eqb model _ = false |- _ => rewrite Heq; clear Heq end.
  cbn [raise]. apply on_failure_run.
Qed.

(** C8: the provider 'local' returns the placeholder sentence for every
    credential, audio reference and model path, in every world, and leaves
    the state as it was: no event, hence no I/O and no backend, is added,
    and nothing is raised. *)
Theorem local_returns_placeholder api_key path lmp s :
  transcribe_audio w "local" api_key path lmp s
  = (Returns (PyStr "Transcribed text from local model"), s).
Proof. reflexivity. Qed.

(** C10: [local_model_path] is read by no branch: two calls that differ
    in it only have the same outcome and leave the same state. *)
Theorem local_model_path_unused model api_key path lmp1 lmp2 s :
  transcribe_audio w model api_key path lmp1 s
  = transcribe_audio w model api_key path lmp2 s.
Proof. reflexivity. Qed.

End Dispatcher.

Lemma transcribe_audio_flattens_failures_witness :
  dispatch world_off "gemini" None "question.mp3" init_state
  = (Raises (mk_exn KeyError "'GEMINI_MODEL'"), init_state)
  /\ fst (transcribe_audio world_off "gemini" None "question.mp3" None init_state)
     = Raises (Exn Exception "Error in transcribing audio"
                 (Some (mk_exn KeyError "'GEMINI_MODEL'"))).
Proof.
  split; [reflexivity|].
  rewrite (transcribe_audio_flattens_failures world_off "gemini" None "question.mp3" None
             init_state (mk_exn KeyError "'GEMINI_MODEL'") init_state); reflexivity.
Defined.

(** C1, as stated, fails: the error the caller receives is not the same
    for every cause.  A missing GEMINI_MODEL and an unknown provider give
    errors of the same class and message that differ in [__context__],
    which is the [KeyError] in one and the [ValueError] in the other. *)
Lemma failure_cause_is_readable :
  ~ (forall w model model' api_key path lmp s e e' s1 s1',
       dispatch w model api_key path s = (Raises e, s1) ->
       dispatch w model' api_key path s = (Raises e', s1') ->
       fst (transcribe_audio w model api_key path lmp s)
       = fst (transcribe_audio w model' api_key path lmp s)).
Proof.
  intro H.
  specialize (H world_off "gemini" "whisper" None "question.mp3" None init_state
                (mk_exn KeyError "'GEMINI_MODEL'")
                (mk_exn ValueError "Unsupported transcription model")
                init_state init_state eq_refl eq_refl).
  vm_compute in H. discriminate H.
Qed.

Lemma failure_cause_run :
  option_map exn_class_of
    (match fst (transcribe_audio world_off "gemini" None "question.mp3" None init_state) with
     | Raises e => exn_context e
     | Returns _ => None
     end) = Some KeyError
  /\ option_map exn_class_of
       (match fst (transcribe_audio world_off "whisper" None "question.mp3" None
                     init_state) with
        | Raises e => exn_context e
        | Returns _ => None
        end) = Some ValueError.
Proof. split; reflexivity. Qed.

Lemma unknown_provider_raises_witness :
  is_known "whisper" = false
  /\ fst (transcribe_audio (world_up PyNone) "whisper" (Some "sk-1") "question.mp3" None
            init_state)
     = Raises (during (mk_exn ValueError "Unsupported transcription model")
                 transcription_failed).
Proof.
  split; [reflexivity|].
  rewrite (unknown_provider_raises (world_up PyNone) "whisper" (Some "sk-1")
             "question.mp3" None init_state); reflexivity.
Defined.

(* ================================================================== *)
(** * The gate over a process *)
(* ================================================================== *)

(** C3: the flag starts unset; along any process, from any state, it is
    never reset and is set at most once; and from a state in which it is
    set, no call into the module (a direct invocation of
    [check_fastwhisperapi] or one through an adapter) adds a probe, however
    the service answers later. *)
Theorem flag_set_once_then_no_probe w cs s :
  checked_fastwhisperapi init_state = false
  /\ falls (map checked_fastwhisperapi (states_of w cs s)) = 0
  /\ rises (map checked_fastwhisperapi (states_of w cs s)) <= 1
  /\ (checked_fastwhisperapi s = true ->
      forall s', In s' (states_of w cs s) ->
        checked_fastwhisperapi s' = true /\ probes (trace s') = probes (trace s)).
Proof.
  destruct (flag_monotone w cs s) as (Hfalls & Hrises & _).
  repeat split; try assumption; intros; eapply states_of_gate_safe; eauto.
Qed.

Lemma flag_set_once_then_no_probe_witness :
  checked_fastwhisperapi (exec world_late CallCheck (exec world_late CallCheck init_state))
  = true
  /\ probes (trace (exec world_down (CallFastWhisper "question.wav")
                      (exec world_late CallCheck (exec world_late CallCheck init_state))))
     = 2.
Proof.
  split; [reflexivity|].
  destruct (flag_set_once_then_no_probe world_down [CallFastWhisper "question.wav"]
              (exec world_late CallCheck (exec world_late CallCheck init_state)))
    as (_ & _ & _ & Hsafe).
  destruct (Hsafe eq_refl
              (exec world_down (CallFastWhisper "question.wav")
                 (exec world_late CallCheck (exec world_late CallCheck init_state))))
    as [_ Hp].
  - right. left. reflexivity.
  - rewrite Hp. reflexivity.
Defined.

Lemma invoke_check_probes w n s :
  probes (trace (snd (invoke_check w n s))) + Nat.b2n (checked_fastwhisperapi s)
  = probes (trace s) + failures (fst (invoke_check w n s))
    + Nat.b2n (checked_fastwhisperapi (snd (invoke_check w n s)))
  /\ probes (trace (snd (invoke_check w n s))) <= probes (trace s) + n.
Proof.
  revert s. induction n as [|n IH]; intro s.
  - cbn. split; lia.
  - cbn [invoke_check].
    destruct (check_fastwhisperapi_cases w s) as [[Hs ->]|[[Hs ->]|[Hs ->]]];
      match goal with
      | |- context [invoke_check w n ?s1] =>
          specialize (IH s1); destruct (invoke_check w n s1) as [rs s2]
      end;
      cbn [fst snd] in *; unfold failures in *; cbn [filter failed List.length];
      cbn [checked_fastwhisperapi trace] in IH; rewrite ?probes_snoc in IH;
      cbn [is_probe probe_event] in IH; rewrite ?String.eqb_refl in IH;
      rewrite ?Hs in *; cbn [Nat.b2n] in *; lia.
Qed.

(** C4, as the code has it: in a fresh process, [n] invocations of
    [check_fastwhisperapi] issue one probe for each invocation that fails
    and one more if the flag ends up set; at most [n] in all. *)
Theorem probes_of_invocations w n :
  probes (trace (snd (invoke_check w n init_state)))
  = failures (fst (invoke_check w n init_state))
    + Nat.b2n (checked_fastwhisperapi (snd (invoke_check w n init_state)))
  /\ probes (trace (snd (invoke_check w n init_state))) <= n.
Proof.
  destruct (invoke_check_probes w n init_state) as [Heq Hle].
  cbn [init_state checked_fastwhisperapi trace probes filter List.length Nat.b2n] in *.
  split; lia.
Qed.

Lemma invoke_check_late_run :
  map failed (fst (invoke_check world_late 4 init_state)) = [true; false; false; false]
  /\ probes (trace (snd (invoke_check world_late 4 init_state))) = 2.
Proof. split; reflexivity. Qed.

(** C4, as stated, fails: with the service answering 500, two
    invocations issue two probes. *)
Lemma failed_probe_is_repeated :
  ~ (forall w n, probes (trace (snd (invoke_check w n init_state))) <= 1).
Proof.
  intro H. specialize (H world_down 2). vm_compute in H. lia.
Qed.

(* ================================================================== *)
(** * The adapters *)
(* ================================================================== *)

Section Adapters.

Variable w : world.

(** ** FastWhisper *)

(** C5, for a JSON object: once the service has been found ready, the
    file opened and the POST answered with a JSON object, the adapter
    returns the value under 'text' when the object has one and the
    sentence "No text found in the response." when it has none, and so
    does the dispatcher. *)
Theorem fastwhisper_text_or_fallback path s opened resp items :
  fst (check_fastwhisperapi w s) = Returns tt ->
  open_rb w (trace (after (check_fastwhisperapi w) s)) path = Returns opened ->
  requests_post w (trace (after (check_fastwhisperapi w) s) ++ [EvOpen path])
                (fastwhisper_request path opened) = Returns resp ->
  json resp = Returns (PyDict items) ->
  fst (_transcribe_with_fastwhisperapi w path s)
  = Returns match dict_lookup "text" items with
            | Some v => v
            | None => PyStr "No text found in the response."
            end
  /\ forall api_key lmp,
       fst (transcribe_audio w "fastwhisperapi" api_key path lmp s)
       = fst (_transcribe_with_fastwhisperapi w path s).
Proof.
  intros Hcheck Hopen Hpost Hjson.
  assert (Hrun : fst (_transcribe_with_fastwhisperapi w path s)
                 = Returns match dict_lookup "text" items with
                           | Some v => v
                           | None => PyStr "No text found in the response."
                           end).
  { unfold _transcribe_with_fastwhisperapi, bind, after in *.
    destruct (check_fastwhisperapi w s) as [[[]|e] s0]; cbn [fst snd] in *;
      [|discriminate].
    unfold external, lift. cbn [trace checked_fastwhisperapi]. rewrite Hopen.
    fold (fastwhisper_request path opened). rewrite Hpost, Hjson.
    cbn [Py.get fst]. now destruct (dict_lookup "text" items). }
  split; [exact Hrun|].
  intros api_key lmp. rewrite Hrun.
  apply transcribe_audio_returns. exact Hrun.
Qed.

(** ** Deepgram *)

Lemma getitem_str_returns obj k v : field k obj = Some v -> getitem_str obj k = Returns v.
Proof. destruct obj; cbn; try discriminate. now intros ->. Qed.

Lemma getitem_str_raises obj k : field k obj = None -> exists e, getitem_str obj k = Raises e.
Proof.
  destruct obj; cbn; intros H; try (eexists; reflexivity).
  rewrite H. eexists; reflexivity.
Qed.

Lemma getitem_0_returns obj v : first obj = Some v -> getitem_0 obj = Returns v.
Proof.
  destruct obj as [| | | | |[|x xs]|]; cbn; try discriminate. now intros [= ->].
Qed.

(** Without a first element [obj[0]] raises, or [obj] is a string and
    the next lookup by key will raise. *)
Lemma getitem_0_no_first obj :
  first obj = None ->
  (exists e, getitem_0 obj = Raises e)
  \/ (exists c, getitem_0 obj = Returns (PyStr c)).
Proof.
  destruct obj as [| | | |[|c str]|[|x xs]|]; cbn; intros H;
    try discriminate; try (left; eexists; reflexivity).
  right. eexists; reflexivity.
Qed.

Ltac descend_key H :=
  first [ rewrite (getitem_str_returns _ _ _ H); cbn [opt_bind]
        | destruct (getitem_str_raises _ _ H) as [? ->]; eexists; reflexivity ].

Ltac descend_first H :=
  first [ rewrite (getitem_0_returns _ _ H); cbn [opt_bind]
        | destruct (getitem_0_no_first _ H) as [[? ->]|[? ->]];
          eexists; reflexivity ].

(** The descent of the adapter finds exactly what the path holds, and
    raises where the path breaks. *)
Lemma deepgram_transcript_run data s :
  match transcript_path data with
  | Some transcript => deepgram_transcript data s = (Returns transcript, s)
  | None => exists e, deepgram_transcript data s = (Raises e, s)
  end.
Proof.
  unfold transcript_path, deepgram_transcript, bind, lift.
  destruct (field "results" data) as [results|] eqn:H1; cbn [opt_bind]; descend_key H1.
  destruct (field "channels" results) as [channels|] eqn:H2; cbn [opt_bind]; descend_key H2.
  destruct (first channels) as [channel|] eqn:H3; cbn [opt_bind]; descend_first H3.
  destruct (field "alternatives" channel) as [alternatives|] eqn:H4; cbn [opt_bind];
    descend_key H4.
  destruct (first alternatives) as [alternative|] eqn:H5; cbn [opt_bind]; descend_first H5.
  destruct (field "transcript" alternative) as [transcript|] eqn:H6; descend_key H6.
  reflexivity.
Qed.

(** C6: given the response the Deepgram backend produced, the adapter
    returns exactly the value at results -> channels[0] -> alternatives[0]
    -> transcript when every level is there; when a level is missing it
    raises, so that the dispatcher raises the generic failure (while
    handling that exception), and no text (empty or other) is returned in
    its place. *)
Theorem deepgram_transcript_or_error api_key path lmp s buffer data :
  new_client w (trace s) DeepgramClient api_key = Returns tt ->
  open_rb w (trace s) path = Returns buffer ->
  transcribe_file w (trace s ++ [EvOpen path; EvClose path]) api_key
                  [("buffer", buffer)] (mk_options "nova-2" true) = Returns data ->
  match transcript_path data with
  | Some transcript =>
      fst (_transcribe_with_deepgram w api_key path s) = Returns transcript
      /\ fst (transcribe_audio w "deepgram" api_key path lmp s) = Returns transcript
  | None =>
      exists e,
        fst (_transcribe_with_deepgram w api_key path s) = Raises e
        /\ fst (transcribe_audio w "deepgram" api_key path lmp s)
           = Raises (during e transcription_failed)
  end.
Proof.
  intros Hclient Hopen Hfile.
  assert (Hrun : match transcript_path data with
                 | Some transcript =>
                     fst (_transcribe_with_deepgram w api_key path s) = Returns transcript
                 | None => exists e, fst (_transcribe_with_deepgram w api_key path s) = Raises e
                 end).
  { unfold _transcribe_with_deepgram, with_open, try_except, consult, lift, external,
      ret, bind. cbn [trace checked_fastwhisperapi].
    rewrite Hclient, Hopen. cbn [trace checked_fastwhisperapi].
    rewrite <- app_assoc. cbn [app]. rewrite Hfile.
    match goal with
    | |- context [deepgram_transcript data ?s1] =>
        pose proof (deepgram_transcript_run data s1) as Hpath
    end.
    destruct (transcript_path data) as [transcript|].
    - rewrite Hpath. reflexivity.
    - destruct Hpath as [e ->]. exists e. reflexivity. }
  destruct (transcript_path data) as [transcript|].
  - split; [exact Hrun|]. apply transcribe_audio_returns. exact Hrun.
  - destruct Hrun as [e He]. exists e. split; [exact He|].
    apply transcribe_audio_raises. exact He.
Qed.

(** ** Gemini *)

Lemma strip_prefix_app p s : strip_prefix p (p ++ s) = Some s.
Proof.
  induction p as [|a p IH]; cbn; [reflexivity|].
  now rewrite Ascii.eqb_refl.
Qed.

Lemma gemini_run api_key path s model audio :
  environ w (trace s) "GEMINI_MODEL" = Some model ->
  read_bytes w (trace s) path = Returns audio ->
  trace (after (_transcribe_with_gemini w api_key path) s)
  = (trace s ++ [EvReadBytes path;
                 EvCompletion (mk_completion model api_key
                   (gemini_messages (Base64.decode_utf8 (Base64.b64encode audio))))])%list.
Proof.
  intros Henv Hread.
  unfold after, _transcribe_with_gemini, consult, external, ret, bind.
  cbn [trace checked_fastwhisperapi]. rewrite Henv. cbn [trace checked_fastwhisperapi].
  rewrite Hread. cbn [trace checked_fastwhisperapi].
  match goal with
  | |- context [completion w ?h ?r] => destruct (completion w h r) as [[|content rest]|e]
  end; cbn [snd trace raise]; now rewrite <- !app_assoc.
Qed.

(** C7: for every audio payload, the request the adapter sends carries
    as its attachment the data URL of the base64 encoding of exactly those
    bytes, and decoding the base64 data of the attachment gives the bytes
    back. *)
Theorem gemini_attachment_round_trip api_key path s model audio :
  environ w (trace s) "GEMINI_MODEL" = Some model ->
  read_bytes w (trace s) path = Returns audio ->
  exists req,
    trace (after (_transcribe_with_gemini w api_key path) s)
    = (trace s ++ [EvReadBytes path; EvCompletion req])%list
    /\ attachment_of req
       = Some ("data:audio/mp3;base64," ++ Base64.decode_utf8 (Base64.b64encode audio))
    /\ attachment_bytes req = Some audio.
Proof.
  intros Henv Hread. eexists. split; [apply gemini_run; eassumption|].
  split; [reflexivity|].
  unfold attachment_bytes.
  change (attachment_of _)
    with (Some (data_url_prefix ++ Base64.decode_utf8 (Base64.b64encode audio))).
  cbn [opt_bind]. rewrite strip_prefix_app. cbn [opt_bind].
  apply Base64Facts.b64decode_b64encode.
Qed.

(** C9: the model identifier is the GEMINI_MODEL entry of the process
    environment.  While the entry is absent the adapter raises
    [KeyError('GEMINI_MODEL')] before any I/O, and the dispatcher turns it
    into the generic failure (raised while handling that [KeyError]);
    while it is present, every completion request the call issues names
    that model, whatever the credential and the audio reference, and one
    is issued once the file has been read. *)
Theorem gemini_model_from_environ api_key path lmp s :
  match environ w (trace s) "GEMINI_MODEL" with
  | None =>
      _transcribe_with_gemini w api_key path s
      = (Raises (mk_exn KeyError "'GEMINI_MODEL'"), s)
      /\ transcribe_audio w "gemini" api_key path lmp s
         = (Raises (during (mk_exn KeyError "'GEMINI_MODEL'") transcription_failed),
            mk_state (checked_fastwhisperapi s)
              (trace s ++ failure_log (mk_exn KeyError "'GEMINI_MODEL'")))
  | Some model =>
      (forall req,
         In (EvCompletion req) (trace (after (_transcribe_with_gemini w api_key path) s)) ->
         In (EvCompletion req) (trace s) \/ cr_model req = model)
      /\ (forall audio,
            read_bytes w (trace s) path = Returns audio ->
            exists messages,
              In (EvCompletion (mk_completion model api_key messages))
                 (trace (after (_transcribe_with_gemini w api_key path) s)))
  end.
Proof.
  destruct (environ w (trace s) "GEMINI_MODEL") as [model|] eqn:Henv.
  - split.
    + intros req Hin. destruct (read_bytes w (trace s) path) as [audio|e] eqn:Hread.
      * rewrite (gemini_run api_key path s model audio Henv Hread) in Hin.
        apply in_app_or in Hin. destruct Hin as [Hin|Hin]; [now left|].
        right. cbn in Hin. destruct Hin as [H|[H|[]]]; try discriminate.
        now injection H as <-.
      * revert Hin.
        unfold after, _transcribe_with_gemini, consult, external, ret, bind.
        cbn [trace checked_fastwhisperapi]. rewrite Henv.
        cbn [trace checked_fastwhisperapi]. rewrite Hread. cbn [snd trace].
        intros Hin. apply in_app_or in Hin. destruct Hin as [Hin|Hin]; [now left|].
        cbn in Hin. destruct Hin as [H|[]]. discriminate.
    + intros audio Hread. eexists.
      rewrite (gemini_run api_key path s model audio Henv Hread).
      apply in_or_app. right. cbn. right. left. reflexivity.
  - assert (Hrun : _transcribe_with_gemini w api_key path s
                   = (Raises (mk_exn KeyError "'GEMINI_MODEL'"), s)).
    { unfold _transcribe_with_gemini, bind, consult. rewrite Henv. reflexivity. }
    split; [exact Hrun|].
    unfold transcribe_audio, try_except.
    change (dispatch w "gemini" api_key path s) with (_transcribe_with_gemini w api_key path s).
    rewrite Hrun. apply on_failure_run.
Qed.

End Adapters.

(* ================================================================== *)
(** * Runs in the sample worlds *)
(* ================================================================== *)

Lemma fastwhisper_text_or_fallback_witness :
  fst (check_fastwhisperapi (world_up (PyDict [("text", PyStr "hello")])) init_state)
  = Returns tt
  /\ fst (_transcribe_with_fastwhisperapi (world_up (PyDict [("text", PyStr "hello")]))
            "question.wav" init_state)
     = Returns (PyStr "hello").
Proof.
  split; [reflexivity|].
  apply (fastwhisper_text_or_fallback (world_up (PyDict [("text", PyStr "hello")]))
           "question.wav" init_state sample_audio
           (mk_response 200 (Returns (PyDict [("text", PyStr "hello")])))
           [("text", PyStr "hello")]);
    reflexivity.
Defined.

(** C5, as stated for every JSON response, fails: a body that is a JSON
    array has no 'text' field, and the adapter raises [AttributeError]
    where the claim has it return the fallback sentence. *)
Lemma fastwhisper_array_body_raises :
  ~ (forall w path s opened resp body,
       fst (check_fastwhisperapi w s) = Returns tt ->
       open_rb w (trace (after (check_fastwhisperapi w) s)) path = Returns opened ->
       requests_post w (trace (after (check_fastwhisperapi w) s) ++ [EvOpen path])
                     (fastwhisper_request path opened) = Returns resp ->
       json resp = Returns body ->
       fst (_transcribe_with_fastwhisperapi w path s) = Returns (text_or_fallback body)).
Proof.
  intro H.
  specialize (H (world_up (PyList [])) "question.wav" init_state sample_audio
                (mk_response 200 (Returns (PyList []))) (PyList [])
                eq_refl eq_refl eq_refl eq_refl).
  vm_compute in H. discriminate H.
Qed.

Lemma fastwhisper_array_body_run :
  fst (_transcribe_with_fastwhisperapi (world_up (PyList [])) "question.wav" init_state)
  = Raises (mk_exn AttributeError "'list' object has no attribute 'get'")
  /\ fst (transcribe_audio (world_up (PyList [])) "fastwhisperapi" None "question.wav" None
            init_state)
     = Raises (during (mk_exn AttributeError "'list' object has no attribute 'get'")
                 transcription_failed).
Proof. split; reflexivity. Qed.

Lemma fastwhisper_missing_text_run :
  fst (transcribe_audio (world_up (PyDict [("detail", PyStr "ok")])) "fastwhisperapi" None
         "question.wav" None init_state)
  = Returns (PyStr "No text found in the response.").
Proof. reflexivity. Qed.

(** The service is down at the first call and up at the second. *)
Lemma fastwhisper_retry_run :
  fst (transcribe_audio world_late "fastwhisperapi" None "sample.wav" None init_state)
  = Raises (during (during unreachable_error not_running) transcription_failed)
  /\ fst (transcribe_audio world_late "fastwhisperapi" None "sample.wav" None
            (exec world_late (CallTranscribe "fastwhisperapi" None "sample.wav" None)
               init_state))
     = Returns (PyStr "hi there").
Proof. split; reflexivity. Qed.

Lemma deepgram_transcript_or_error_witness :
  transcript_path (deepgram_reply (PyStr "hello")) = Some (PyStr "hello")
  /\ fst (transcribe_audio (world_up PyNone) "deepgram" (Some "dg-key") "question.wav" None
            init_state)
     = Returns (PyStr "hello").
Proof.
  split; [reflexivity|].
  apply (deepgram_transcript_or_error (world_up PyNone) (Some "dg-key") "question.wav" None
           init_state sample_audio (deepgram_reply (PyStr "hello")));
    reflexivity.
Defined.

Lemma deepgram_missing_results_run :
  transcript_path (PyDict [("metadata", PyDict [])]) = None
  /\ deepgram_transcript (PyDict [("metadata", PyDict [])]) init_state
     = (Raises (mk_exn KeyError "'results'"), init_state).
Proof. split; reflexivity. Qed.

Lemma deepgram_no_channel_run :
  deepgram_transcript (PyDict [("results", PyDict [("channels", PyList [])])]) init_state
  = (Raises (mk_exn IndexError "list index out of range"), init_state).
Proof. reflexivity. Qed.

Lemma gemini_attachment_round_trip_witness :
  exists req,
    trace (after (_transcribe_with_gemini (world_up PyNone) (Some "g-key") "question.mp3")
             init_state)
    = [EvReadBytes "question.mp3"; EvCompletion req]
    /\ attachment_of req = Some "data:audio/mp3;base64,UklGRgD/EA=="
    /\ attachment_bytes req = Some sample_audio.
Proof.
  destruct (gemini_attachment_round_trip (world_up PyNone) (Some "g-key") "question.mp3"
              init_state "gemini/gemini-1.5-flash-002" sample_audio eq_refl eq_refl)
    as (req & Htrace & Hurl & Hbytes).
  exists req. repeat split; assumption.
Defined.

Lemma gemini_model_from_environ_witness :
  environ world_off [] "GEMINI_MODEL" = None
  /\ fst (transcribe_audio world_off "gemini" (Some "g-key") "question.mp3" None init_state)
     = Raises (during (mk_exn KeyError "'GEMINI_MODEL'") transcription_failed).
Proof.
  split; [reflexivity|].
  rewrite (proj2 (gemini_model_from_environ world_off (Some "g-key") "question.mp3" None
                    init_state)).
  reflexivity.
Defined.

Lemma gemini_model_ignores_arguments_run :
  trace (after (_transcribe_with_gemini (world_up PyNone) None "a.mp3") init_state)
  = [EvReadBytes "a.mp3";
     EvCompletion (mk_completion "gemini/gemini-1.5-flash-002" None
                     (gemini_messages "UklGRgD/EA=="))].
Proof. reflexivity. Qed.

(* ================================================================== *)
(** * More on the readiness check *)
(* ================================================================== *)

Section GateRuns.

Variable w : world.

(** With the flag unset the invocation is decided by the one probe. *)
Lemma check_fastwhisperapi_unset_run s :
  checked_fastwhisperapi s = false ->
  check_fastwhisperapi w s
  = ((if answers_200 w (trace s) then Returns tt
      else Raises (during (probe_failure w (trace s)) not_running)),
     mk_state (answers_200 w (trace s)) (trace s ++ [probe_event])).
Proof.
  destruct s as [[|] t]; [discriminate|]. intros _.
  unfold check_fastwhisperapi, answers_200, probe_failure, bind, try_except, external,
    get_checked, set_checked, probe_event. cbn.
  destruct (requests_get w t _) as [[code body]|e]; cbn; [|reflexivity].
  destruct (code =? 200)%Z; reflexivity.
Qed.

Lemma check_fastwhisperapi_set_run s :
  checked_fastwhisperapi s = true -> check_fastwhisperapi w s = (Returns tt, s).
Proof. destruct s as [[|] t]; [reflexivity | discriminate]. Qed.

(** X1: with the flag unset, [check_fastwhisperapi] returns exactly when
    the info endpoint answers 200; on any other status and on any
    exception of the GET it raises [Exception("FastWhisperAPI is not
    running")], of the same class and message for every cause, with what
    its [except] clause caught (the exception of the GET, or the one raised
    for the status) as [__context__].  Either way one probe is added, and
    the flag ends up set exactly when the answer was 200. *)
Theorem check_decided_by_probe s :
  checked_fastwhisperapi s = false ->
  (answers_200 w (trace s) = true -> fst (check_fastwhisperapi w s) = Returns tt)
  /\ (answers_200 w (trace s) = false ->
      fst (check_fastwhisperapi w s)
      = Raises (Exn Exception "FastWhisperAPI is not running"
                  (Some (probe_failure w (trace s)))))
  /\ checked_fastwhisperapi (after (check_fastwhisperapi w) s) = answers_200 w (trace s)
  /\ probes (trace (after (check_fastwhisperapi w) s)) = probes (trace s) + 1.
Proof.
  intros Hs. unfold after. rewrite (check_fastwhisperapi_unset_run s Hs).
  cbn [fst snd checked_fastwhisperapi trace]. rewrite probes_snoc.
  repeat split; try (intros ->; reflexivity).
Qed.

Lemma bind_quiet_tail {A B} (m : M A) (k : A -> M B) s :
  (forall a, quiet (k a)) ->
  checked_fastwhisperapi (after (bind m k) s) = checked_fastwhisperapi (after m s)
  /\ probes (trace (after (bind m k) s)) = probes (trace (after m s)).
Proof.
  intros Hk. unfold after, bind.
  destruct (m s) as [[a|e] s0]; cbn [snd]; [|split; reflexivity].
  apply (Hk a s0).
Qed.

Lemma fastwhisperapi_flag path s :
  checked_fastwhisperapi (after (_transcribe_with_fastwhisperapi w path) s)
  = checked_fastwhisperapi (after (check_fastwhisperapi w) s).
Proof.
  unfold _transcribe_with_fastwhisperapi.
  apply bind_quiet_tail. intros _. quiet_steps.
Qed.

Lemma on_failure_quiet e : quiet (on_failure e).
Proof. unfold on_failure. quiet_steps. Qed.

Lemma transcribe_audio_flag model api_key path lmp s :
  checked_fastwhisperapi (after (transcribe_audio w model api_key path lmp) s)
  = checked_fastwhisperapi (after (dispatch w model api_key path) s).
Proof.
  unfold transcribe_audio, try_except, after.
  destruct (dispatch w model api_key path s) as [[v|e] s1]; cbn [snd]; [reflexivity|].
  apply (on_failure_quiet e s1).
Qed.

(** Every provider but 'fastwhisperapi' leaves the gate alone. *)
Lemma dispatch_quiet model api_key path :
  String.eqb model "fastwhisperapi" = false -> quiet (dispatch w model api_key path).
Proof.
  intros Hm. unfold dispatch. rewrite Hm.
  repeat match goal with
         | |- quiet (if ?b then _ else _) => destruct b
         end;
    auto using openai_quiet, groq_quiet, deepgram_quiet, gemini_quiet, quiet_ret, quiet_raise.
Qed.

(** X2: only the provider 'fastwhisperapi' touches the readiness check:
    for every other provider string, known or not, [transcribe_audio]
    leaves the flag as it was and issues no probe. *)
Theorem other_providers_never_probe model api_key path lmp s :
  String.eqb model "fastwhisperapi" = false ->
  checked_fastwhisperapi (after (transcribe_audio w model api_key path lmp) s)
  = checked_fastwhisperapi s
  /\ probes (trace (after (transcribe_audio w model api_key path lmp) s))
     = probes (trace s).
Proof.
  intros Hm. unfold transcribe_audio.
  apply (quiet_try_except (dispatch w model api_key path) on_failure).
  - now apply dispatch_quiet.
  - apply on_failure_quiet.
Qed.

(** X3: readiness is never recorded without a 200: if a call into the
    module starts with the flag unset and ends with it set, the info
    endpoint answered 200 to the probe made at the start of that call. *)
Theorem flag_set_only_after_200 c s :
  checked_fastwhisperapi s = false ->
  checked_fastwhisperapi (exec w c s) = true ->
  answers_200 w (trace s) = true.
Proof.
  intros Hs Hset.
  assert (Hcheck : checked_fastwhisperapi (after (check_fastwhisperapi w) s) = true ->
                   answers_200 w (trace s) = true).
  { unfold after. rewrite (check_fastwhisperapi_unset_run s Hs). cbn. auto. }
  assert (Hquiet : forall (m : M pyval),
             quiet m -> checked_fastwhisperapi (after m s) = true -> False).
  { intros m Hm Hafter. destruct (Hm s) as [Hc _]. congruence. }
  destruct c as [|model api_key path lmp|k p|k p|k p|k p|path]; cbn [exec] in Hset.
  - auto.
  - rewrite transcribe_audio_flag in Hset.
    destruct (String.eqb model "fastwhisperapi") eqn:Hm.
    + apply String.eqb_eq in Hm. subst model.
      change (dispatch w "fastwhisperapi" api_key path)
        with (_transcribe_with_fastwhisperapi w path) in Hset.
      rewrite fastwhisperapi_flag in Hset. auto.
    + exfalso. eapply Hquiet; [apply (dispatch_quiet model api_key path Hm) | exact Hset].
  - exfalso. eapply Hquiet; [apply openai_quiet | exact Hset].
  - exfalso. eapply Hquiet; [apply groq_quiet | exact Hset].
  - exfalso. eapply Hquiet; [apply deepgram_quiet | exact Hset].
  - exfalso. eapply Hquiet; [apply gemini_quiet | exact Hset].
  - rewrite fastwhisperapi_flag in Hset. auto.
Qed.

(** X4: when the flag is unset and the probe is not answered with 200,
    the 'fastwhisperapi' provider stops there: the audio file is not
    opened and nothing is posted, the flag stays unset, and the log names
    the service as not running before the generic failure is raised
    (while the "not running" exception is handled). *)
Theorem fastwhisperapi_not_running api_key path lmp s :
  checked_fastwhisperapi s = false ->
  answers_200 w (trace s) = false ->
  transcribe_audio w "fastwhisperapi" api_key path lmp s
  = (Raises (during (during (probe_failure w (trace s)) not_running) transcription_failed),
     mk_state false
       (trace s ++ probe_event
          :: [EvLogError (Fore_RED
                          ++ "Failed to transcribe audio: FastWhisperAPI is not running"
                          ++ Fore_RESET);
              EvPrintExc (during (probe_failure w (trace s)) not_running)])).
Proof.
  intros Hs Hdown. unfold transcribe_audio, try_except.
  change (dispatch w "fastwhisperapi" api_key path)
    with (_transcribe_with_fastwhisperapi w path).
  unfold _transcribe_with_fastwhisperapi, bind.
  rewrite (check_fastwhisperapi_unset_run s Hs), Hdown.
  rewrite on_failure_run. cbn [checked_fastwhisperapi trace].
  now rewrite <- app_assoc.
Qed.

(** X5: once the check has passed and the file is open, the adapter
    sends one POST to /v1/transcriptions with the fixed form fields and
    bearer token and never closes the file; what it hands back is decided
    by the body alone: an exception of the POST or of [response.json()]
    is passed on, and the status code of the answer is not looked at. *)
Theorem fastwhisperapi_posts_once path s opened :
  fst (check_fastwhisperapi w s) = Returns tt ->
  open_rb w (trace (after (check_fastwhisperapi w) s)) path = Returns opened ->
  _transcribe_with_fastwhisperapi w path s
  = (match requests_post w (trace (after (check_fastwhisperapi w) s) ++ [EvOpen path])
                         (fastwhisper_request path opened) with
     | Returns resp =>
         match json resp with
         | Returns body => Py.get body "text" (PyStr "No text found in the response.")
         | Raises e => Raises e
         end
     | Raises e => Raises e
     end,
     mk_state (checked_fastwhisperapi (after (check_fastwhisperapi w) s))
       (trace (after (check_fastwhisperapi w) s)
        ++ [EvOpen path;
            EvPost (mk_post "http://localhost:8000/v1/transcriptions"
                      [("file", (path, opened))]
                      [("model", PyStr "base"); ("language", PyStr "en");
                       ("initial_prompt", PyNone); ("vad_filter", PyBool true)]
                      [("Authorization", "Bearer dummy_api_key")])])).
Proof.
  intros Hcheck Hopen.
  unfold _transcribe_with_fastwhisperapi, bind, after in *.
  destruct (check_fastwhisperapi w s) as [[[]|e] s0]; cbn [fst snd] in *; [|discriminate].
  unfold external, lift. cbn [trace checked_fastwhisperapi]. rewrite Hopen.
  fold (fastwhisper_request path opened).
  rewrite <- app_assoc. cbn [app].
  destruct (requests_post w _ _) as [resp|e]; [|reflexivity].
  destruct (json resp) as [body|e]; reflexivity.
Qed.

End GateRuns.

Lemma check_decided_by_probe_witness :
  checked_fastwhisperapi init_state = false
  /\ fst (check_fastwhisperapi world_down init_state)
     = Raises (Exn Exception "FastWhisperAPI is not running"
                 (Some (mk_exn Exception "FastWhisperAPI is not running")))
  /\ fst (check_fastwhisperapi world_off init_state)
     = Raises (Exn Exception "FastWhisperAPI is not running" (Some unreachable_error)).
Proof.
  split; [reflexivity|]. split.
  - apply (check_decided_by_probe world_down init_state eq_refl). reflexivity.
  - apply (check_decided_by_probe world_off init_state eq_refl). reflexivity.
Defined.

Lemma other_providers_never_probe_witness :
  String.eqb "deepgram" "fastwhisperapi" = false
  /\ probes (trace (after (transcribe_audio (world_up PyNone) "deepgram" (Some "dg-key")
                             "question.wav" None) init_state)) = 0.
Proof.
  split; [reflexivity|].
  destruct (other_providers_never_probe (world_up PyNone) "deepgram" (Some "dg-key")
              "question.wav" None init_state eq_refl) as [_ Hp].
  rewrite Hp. reflexivity.
Defined.

Lemma flag_set_only_after_200_witness :
  checked_fastwhisperapi
    (exec (world_up PyNone) (CallTranscribe "fastwhisperapi" None "question.wav" None)
       init_state) = true
  /\ answers_200 (world_up PyNone) [] = true.
Proof.
  split; [reflexivity|].
  apply (flag_set_only_after_200 (world_up PyNone)
           (CallTranscribe "fastwhisperapi" None "question.wav" None) init_state);
    reflexivity.
Defined.

Lemma fastwhisperapi_not_running_witness :
  answers_200 world_down [] = false
  /\ checked_fastwhisperapi
       (after (transcribe_audio world_down "fastwhisperapi" None "sample.wav" None)
          init_state) = false.
Proof.
  split; [reflexivity|].
  unfold after.
  rewrite (fastwhisperapi_not_running world_down None "sample.wav" None init_state
             eq_refl eq_refl).
  reflexivity.
Defined.

Lemma fastwhisperapi_posts_once_witness :
  fst (check_fastwhisperapi (world_up (PyDict [("text", PyStr "hi there")])) init_state)
  = Returns tt
  /\ fst (_transcribe_with_fastwhisperapi (world_up (PyDict [("text", PyStr "hi there")]))
            "sample.wav" init_state)
     = Returns (PyStr "hi there").
Proof.
  split; [reflexivity|].
  rewrite (fastwhisperapi_posts_once (world_up (PyDict [("text", PyStr "hi there")]))
             "sample.wav" init_state sample_audio eq_refl eq_refl).
  reflexivity.
Defined.

(* ================================================================== *)
(** * Counting the requests to the backends *)
(* ================================================================== *)

Section Requests.

Context {A B : Type}.

Lemma transcription_requests_snoc t ev :
  transcription_requests (t ++ [ev])
  = transcription_requests t + (if is_transcription_request ev then 1 else 0).
Proof.
  unfold transcription_requests. rewrite filter_app, length_app. cbn [filter].
  destruct (is_transcription_request ev); reflexivity.
Qed.

Lemma sends_ret (a : A) : sends_at_most 0 (ret a).
Proof. intro s. cbn. lia. Qed.

Lemma sends_raise e : sends_at_most 0 (@raise A e).
Proof. intro s. cbn. lia. Qed.

Lemma sends_lift (o : outcome A) : sends_at_most 0 (lift o).
Proof. intro s. cbn. lia. Qed.

Lemma sends_consult (oracle : list event -> A) : sends_at_most 0 (consult oracle).
Proof. intro s. cbn. lia. Qed.

Lemma sends_external ev (oracle : list event -> outcome A) :
  sends_at_most (if is_transcription_request ev then 1 else 0) (external ev oracle).
Proof.
  intro s. unfold after, external. cbn [snd trace].
  rewrite transcription_requests_snoc. lia.
Qed.

Lemma sends_weaken (m : M A) a b : a <= b -> sends_at_most a m -> sends_at_most b m.
Proof. intros Hab Hm s. specialize (Hm s). lia. Qed.

Lemma sends_bind a b (m : M A) (k : A -> M B) :
  sends_at_most a m -> (forall x, sends_at_most b (k x)) ->
  sends_at_most (a + b) (bind m k).
Proof.
  intros Hm Hk s. specialize (Hm s). unfold after, bind in *.
  destruct (m s) as [[x|e] s1]; cbn [snd] in *; [|lia].
  specialize (Hk x s1). unfold after in Hk. lia.
Qed.

Lemma sends_try_except a b (m : M A) (h : exn -> M A) :
  sends_at_most a m -> (forall e, sends_at_most b (h e)) ->
  sends_at_most (a + b) (try_except m h).
Proof.
  intros Hm Hh s. specialize (Hm s). unfold after, try_except in *.
  destruct (m s) as [[x|e] s1]; cbn [snd] in *; [lia|].
  specialize (Hh e s1). unfold after in Hh. lia.
Qed.

Lemma aborts_raise e : aborts (@raise A e).
Proof. intro s. split; reflexivity. Qed.

(** Nothing runs after a statement that always raises. *)
Lemma aborts_bind_l (m : M A) (k : A -> M B) : aborts m -> aborts (bind m k).
Proof.
  intros Hm s. specialize (Hm s). unfold after, bind in *.
  destruct (m s) as [[x|e] s1]; cbn [fst snd failed] in *; [|exact Hm].
  destruct Hm as [Hm _]. discriminate Hm.
Qed.

Lemma aborts_bind_r (m : M A) (k : A -> M B) :
  sends_at_most 0 m -> (forall x, aborts (k x)) -> aborts (bind m k).
Proof.
  intros Hm Hk s. specialize (Hm s). unfold after, bind in *.
  destruct (m s) as [[x|e] s1]; cbn [fst snd failed] in *.
  - specialize (Hk x s1). unfold after in Hk. destruct Hk as [Hf Hn]. split; [exact Hf|lia].
  - split; [reflexivity|lia].
Qed.

Lemma aborts_try_except (m : M A) (h : exn -> M A) :
  aborts m -> (forall e, aborts (h e)) -> aborts (try_except m h).
Proof.
  intros Hm Hh s. specialize (Hm s). unfold after, try_except in *.
  destruct (m s) as [[x|e] s1]; cbn [fst snd failed] in *.
  - destruct Hm as [Hm _]. discriminate Hm.
  - specialize (Hh e s1). unfold after in Hh. destruct Hh as [Hf Hn].
    split; [exact Hf|]. destruct Hm as [_ Hm]. congruence.
Qed.

End Requests.

Lemma sends_emit ev : is_transcription_request ev = false -> sends_at_most 0 (emit ev).
Proof.
  intros Hev s. unfold after, emit. cbn [snd trace].
  rewrite transcription_requests_snoc, Hev. lia.
Qed.

Lemma sends_with_open {A} w path k (body : list byte -> M A) :
  (forall f, sends_at_most k (body f)) -> sends_at_most k (with_open w path body).
Proof.
  intros Hbody. unfold with_open.
  apply (sends_bind 0 k); [apply (sends_external (EvOpen path))|].
  intros f s. specialize (Hbody f s). unfold after in *.
  destruct (body f s) as [r s1]. cbn [snd trace] in *.
  rewrite transcription_requests_snoc. cbn [is_transcription_request]. lia.
Qed.

Lemma aborts_open {A} w path (k : list byte -> M A) :
  unreadable w path ->
  aborts (bind (external (EvOpen path) (fun h => open_rb w h path)) k).
Proof.
  intros Hpath. apply aborts_bind_l. intro s.
  unfold after, external. cbn [fst snd trace].
  rewrite transcription_requests_snoc. cbn [is_transcription_request].
  split; [apply Hpath | lia].
Qed.

Lemma aborts_read_bytes {A} w path (k : list byte -> M A) :
  unreadable w path ->
  aborts (bind (external (EvReadBytes path) (fun h => read_bytes w h path)) k).
Proof.
  intros Hpath. apply aborts_bind_l. intro s.
  unfold after, external. cbn [fst snd trace].
  rewrite transcription_requests_snoc. cbn [is_transcription_request].
  split; [apply Hpath | lia].
Qed.

Lemma sends_check w : sends_at_most 0 (check_fastwhisperapi w).
Proof.
  intro s. unfold after.
  destruct (check_fastwhisperapi_cases w s) as [[_ ->]|[[_ ->]|[_ ->]]];
    cbn [snd trace]; rewrite ?transcription_requests_snoc; cbn; lia.
Qed.

Lemma sends_logging_error msg : sends_at_most 0 (logging_error msg).
Proof. now apply sends_emit. Qed.

Lemma sends_on_failure e : sends_at_most 0 (on_failure e).
Proof.
  unfold on_failure.
  apply (sends_bind 0 0); [apply sends_logging_error|]. intros _.
  apply (sends_bind 0 0); [now apply sends_emit|]. intros _. apply sends_raise.
Qed.

Lemma aborts_on_failure e : aborts (on_failure e).
Proof.
  unfold on_failure.
  apply aborts_bind_r; [apply sends_logging_error|]. intros _.
  apply aborts_bind_r; [now apply sends_emit|]. intros _. apply aborts_raise.
Qed.

Lemma sends_new_client w client api_key :
  sends_at_most 0 (consult (fun h => new_client w h client api_key) >>= lift)%py.
Proof. apply (sends_bind 0 0); [apply sends_consult | intro; apply sends_lift]. Qed.

Lemma sends_deepgram_transcript data : sends_at_most 0 (deepgram_transcript data).
Proof.
  unfold deepgram_transcript.
  repeat (apply (sends_bind 0 0); [apply sends_lift | intro]). apply sends_lift.
Qed.

Section RequestsOfAdapters.

Variable w : world.

Lemma sends_sdk_create client api_key path model language :
  sends_at_most 1
    (with_open w path (fun audio_file =>
       let req := mk_transcription_request model (path, audio_file) language in
       external (EvTranscriptionsCreate client api_key req)
                (fun h => transcriptions_create w h client api_key req))).
Proof. apply sends_with_open. intro f. apply (sends_external (EvTranscriptionsCreate _ _ _)). Qed.

Lemma sends_openai api_key path : sends_at_most 1 (_transcribe_with_openai w api_key path).
Proof.
  unfold _transcribe_with_openai.
  apply (sends_bind 0 1); [apply sends_new_client|]. intros _.
  apply (sends_bind 1 0); [apply sends_sdk_create | intro; apply sends_ret].
Qed.

Lemma sends_groq api_key path : sends_at_most 1 (_transcribe_with_groq w api_key path).
Proof.
  unfold _transcribe_with_groq.
  apply (sends_bind 0 1); [apply sends_new_client|]. intros _.
  apply (sends_bind 1 0); [apply sends_sdk_create | intro; apply sends_ret].
Qed.

Lemma sends_deepgram_handler e :
  sends_at_most 0
    (logging_error (Fore_RED ++ "Deepgram transcription error: " ++ exn_str e ++ Fore_RESET) ;;
     @raise pyval e)%py.
Proof. apply (sends_bind 0 0); [apply sends_logging_error | intro; apply sends_raise]. Qed.

Lemma sends_deepgram api_key path : sends_at_most 1 (_transcribe_with_deepgram w api_key path).
Proof.
  unfold _transcribe_with_deepgram.
  apply (sends_bind 0 1); [apply sends_new_client|]. intros _.
  apply (sends_try_except 1 0); [|apply sends_deepgram_handler].
  apply (sends_bind 0 1); [apply sends_with_open; intro; apply sends_ret|]. intro buffer.
  apply (sends_bind 1 0); [apply (sends_external (EvTranscribeFile _ _ _))|]. intro data.
  apply (sends_bind 0 0); [apply sends_deepgram_transcript | intro; apply sends_ret].
Qed.

Lemma sends_environ :
  sends_at_most 0
    (env <- consult (fun h => environ w h "GEMINI_MODEL") ;;
     match env with
     | Some v => ret v
     | None => raise (mk_exn KeyError (repr_str "GEMINI_MODEL"))
     end)%py.
Proof.
  apply (sends_bind 0 0); [apply sends_consult|].
  intros [v|]; [apply sends_ret | apply sends_raise].
Qed.

Lemma sends_gemini api_key path : sends_at_most 1 (_transcribe_with_gemini w api_key path).
Proof.
  unfold _transcribe_with_gemini.
  apply (sends_bind 0 1); [apply sends_environ|]. intro model.
  apply (sends_bind 0 1); [apply (sends_external (EvReadBytes _))|]. intro audio.
  apply (sends_bind 1 0); [apply (sends_external (EvCompletion _))|].
  intros [|content rest]; [apply sends_raise | apply sends_ret].
Qed.

Lemma sends_fastwhisperapi path :
  sends_at_most 1 (_transcribe_with_fastwhisperapi w path).
Proof.
  unfold _transcribe_with_fastwhisperapi.
  apply (sends_bind 0 1); [apply sends_check|]. intros _.
  apply (sends_bind 0 1); [apply (sends_external (EvOpen _))|]. intro opened.
  apply (sends_bind 1 0); [apply (sends_external (EvPost _))|]. intro resp.
  apply (sends_bind 0 0); [apply sends_lift | intro; apply sends_lift].
Qed.

Lemma sends_dispatch model api_key path : sends_at_most 1 (dispatch w model api_key path).
Proof.
  unfold dispatch.
  repeat match goal with
         | |- sends_at_most _ (if ?b then _ else _) => destruct b
         end;
    auto using sends_openai, sends_groq, sends_deepgram, sends_gemini, sends_fastwhisperapi;
    apply (sends_weaken _ 0 1); auto using sends_ret, sends_raise.
Qed.

(** X6: one call of [transcribe_audio] sends at most one transcription
    request to a backend, whatever the provider and however the backend
    answers: no branch of the module retries. *)
Theorem transcribe_audio_never_retries model api_key path lmp s :
  transcription_requests (trace (after (transcribe_audio w model api_key path lmp) s))
  <= transcription_requests (trace s) + 1.
Proof.
  unfold transcribe_audio.
  apply (sends_try_except 1 0 (dispatch w model api_key path) on_failure).
  - apply sends_dispatch.
  - apply sends_on_failure.
Qed.

End RequestsOfAdapters.

Section UnreadableFile.

Variable w : world.
Variable path : string.
Hypothesis Hpath : unreadable w path.

Lemma aborts_with_open {A} (body : list byte -> M A) : aborts (with_open w path body).
Proof. unfold with_open. now apply aborts_open. Qed.

Lemma aborts_openai api_key : aborts (_transcribe_with_openai w api_key path).
Proof.
  unfold _transcribe_with_openai.
  apply aborts_bind_r; [apply sends_new_client|]. intros _.
  apply aborts_bind_l, aborts_with_open.
Qed.

Lemma aborts_groq api_key : aborts (_transcribe_with_groq w api_key path).
Proof.
  unfold _transcribe_with_groq.
  apply aborts_bind_r; [apply sends_new_client|]. intros _.
  apply aborts_bind_l, aborts_with_open.
Qed.

Lemma aborts_deepgram api_key : aborts (_transcribe_with_deepgram w api_key path).
Proof.
  unfold _transcribe_with_deepgram.
  apply aborts_bind_r; [apply sends_new_client|]. intros _.
  apply aborts_try_except; [apply aborts_bind_l, aborts_with_open|].
  intro e. apply aborts_bind_r; [apply sends_logging_error|]. intros _. apply aborts_raise.
Qed.

Lemma aborts_gemini api_key : aborts (_transcribe_with_gemini w api_key path).
Proof.
  unfold _transcribe_with_gemini.
  apply aborts_bind_r; [apply sends_environ|]. intro model.
  now apply aborts_read_bytes.
Qed.

Lemma aborts_fastwhisperapi : aborts (_transcribe_with_fastwhisperapi w path).
Proof.
  unfold _transcribe_with_fastwhisperapi.
  apply aborts_bind_r; [apply sends_check|]. intros _.
  now apply aborts_open.
Qed.

(** X7: when the audio file can be opened neither by [open(path, "rb")]
    nor by [Path(path).read_bytes()], no provider gets as far as its
    backend: [transcribe_audio] sends no transcription request, and for
    every provider string but 'local' (which never touches the file and
    returns its placeholder) it raises the generic failure, while handling
    the exception that stopped the adapter. *)
Theorem unreadable_file_reaches_no_backend model api_key lmp s :
  transcription_requests (trace (after (transcribe_audio w model api_key path lmp) s))
  = transcription_requests (trace s)
  /\ (String.eqb model "local" = false ->
      exists e,
        fst (dispatch w model api_key path s) = Raises e
        /\ fst (transcribe_audio w model api_key path lmp s)
           = Raises (during e transcription_failed)).
Proof.
  assert (Hlocal : String.eqb model "local" = true ->
                   transcribe_audio w model api_key path lmp s
                   = (Returns (PyStr local_placeholder), s)).
  { intros Hm. apply String.eqb_eq in Hm. now subst model. }
  assert (Hothers : String.eqb model "local" = false ->
                    aborts (dispatch w model api_key path)).
  { intros Hm. unfold dispatch. rewrite Hm.
    repeat match goal with
           | |- aborts (if ?b then _ else _) => destruct b
           end;
      auto using aborts_openai, aborts_groq, aborts_deepgram, aborts_gemini,
        aborts_fastwhisperapi, aborts_raise. }
  destruct (String.eqb model "local") eqn:Hm.
  - unfold after. rewrite (Hlocal eq_refl). split; [reflexivity | discriminate].
  - pose proof (aborts_try_except _ on_failure (Hothers eq_refl) aborts_on_failure s)
      as [Hfail Hsame].
    split; [exact Hsame|]. intros _.
    pose proof (Hothers eq_refl s) as [Hraises _].
    destruct (fst (dispatch w model api_key path s)) as [v|e] eqn:Hd; [discriminate|].
    exists e. split; [reflexivity|].
    apply transcribe_audio_raises. exact Hd.
Qed.

End UnreadableFile.

Lemma unreadable_file_reaches_no_backend_witness :
  unreadable world_no_files "missing.wav"
  /\ transcription_requests
       (trace (after (transcribe_audio world_no_files "gemini" (Some "g-key") "missing.wav"
                        None) init_state)) = 0
  /\ fst (transcribe_audio world_no_files "openai" (Some "sk-1") "missing.wav" None
            init_state)
     = Raises (during (mk_exn OSError "No such file or directory") transcription_failed).
Proof.
  assert (Hpath : unreadable world_no_files "missing.wav")
    by (intro h; split; reflexivity).
  split; [exact Hpath|]. split.
  - rewrite (proj1 (unreadable_file_reaches_no_backend world_no_files "missing.wav" Hpath
                      "gemini" (Some "g-key") None init_state)).
    reflexivity.
  - destruct (proj2 (unreadable_file_reaches_no_backend world_no_files "missing.wav" Hpath
                       "openai" (Some "sk-1") None init_state) eq_refl)
      as (e & Hd & Hrun).
    rewrite Hrun. cbn in Hd. injection Hd as <-. reflexivity.
Defined.

(* ================================================================== *)
(** * Runs of the adapters *)
(* ================================================================== *)

Section AdapterRuns.

Variable w : world.

(** X8: with a client and an open file, the OpenAI adapter sends one
    request with model "whisper-1" and language "en", closes the file
    whether the request returned or raised, and hands back the [text] of
    the answer unchanged, or the exception of the request. *)
Theorem openai_returns_text_and_closes api_key path s audio :
  new_client w (trace s) OpenAI api_key = Returns tt ->
  open_rb w (trace s) path = Returns audio ->
  _transcribe_with_openai w api_key path s
  = (match transcriptions_create w (trace s ++ [EvOpen path]) OpenAI api_key
             (mk_transcription_request "whisper-1" (path, audio) "en") with
     | Returns answer => Returns (text answer)
     | Raises e => Raises e
     end,
     mk_state (checked_fastwhisperapi s)
       (trace s ++ [EvOpen path;
                    EvTranscriptionsCreate OpenAI api_key
                      (mk_transcription_request "whisper-1" (path, audio) "en");
                    EvClose path])).
Proof.
  intros Hclient Hopen.
  unfold _transcribe_with_openai, with_open, consult, lift, external, ret, bind.
  cbn [trace checked_fastwhisperapi]. rewrite Hclient, Hopen.
  cbn [trace checked_fastwhisperapi]. rewrite <- !app_assoc. cbn [app].
  destruct (transcriptions_create w _ _ _ _) as [answer|e]; reflexivity.
Qed.

(** X9: the Groq adapter does the same with model "whisper-large-v3"
    and the fixed language "ta". *)
Theorem groq_returns_text_and_closes api_key path s audio :
  new_client w (trace s) Groq api_key = Returns tt ->
  open_rb w (trace s) path = Returns audio ->
  _transcribe_with_groq w api_key path s
  = (match transcriptions_create w (trace s ++ [EvOpen path]) Groq api_key
             (mk_transcription_request "whisper-large-v3" (path, audio) "ta") with
     | Returns answer => Returns (text answer)
     | Raises e => Raises e
     end,
     mk_state (checked_fastwhisperapi s)
       (trace s ++ [EvOpen path;
                    EvTranscriptionsCreate Groq api_key
                      (mk_transcription_request "whisper-large-v3" (path, audio) "ta");
                    EvClose path])).
Proof.
  intros Hclient Hopen.
  unfold _transcribe_with_groq, with_open, consult, lift, external, ret, bind.
  cbn [trace checked_fastwhisperapi]. rewrite Hclient, Hopen.
  cbn [trace checked_fastwhisperapi]. rewrite <- !app_assoc. cbn [app].
  destruct (transcriptions_create w _ _ _ _) as [answer|e]; reflexivity.
Qed.

(** X10: a failure of the Deepgram request is logged twice, by the
    adapter and then by the dispatcher, with the same exception; the file
    was read and closed before the request was sent, and the request
    carried the bytes as its buffer with model "nova-2" and smart
    formatting on. *)
Theorem deepgram_request_failure_logged_twice api_key path lmp s buffer e :
  new_client w (trace s) DeepgramClient api_key = Returns tt ->
  open_rb w (trace s) path = Returns buffer ->
  transcribe_file w (trace s ++ [EvOpen path; EvClose path]) api_key
                  [("buffer", buffer)] (mk_options "nova-2" true) = Raises e ->
  transcribe_audio w "deepgram" api_key path lmp s
  = (Raises (during e transcription_failed),
     mk_state (checked_fastwhisperapi s)
       (trace s ++ [EvOpen path; EvClose path;
                    EvTranscribeFile api_key [("buffer", buffer)] (mk_options "nova-2" true);
                    deepgram_log e]
        ++ failure_log e)).
Proof.
  intros Hclient Hopen Hfile.
  unfold transcribe_audio, try_except at 1.
  change (dispatch w "deepgram" api_key path) with (_transcribe_with_deepgram w api_key path).
  unfold _transcribe_with_deepgram, with_open, try_except, consult, lift, external,
    logging_error, emit, raise, ret, bind.
  cbn [trace checked_fastwhisperapi]. rewrite Hclient, Hopen.
  cbn [trace checked_fastwhisperapi]. rewrite <- app_assoc. cbn [app]. rewrite Hfile.
  rewrite on_failure_run. cbn [trace checked_fastwhisperapi].
  rewrite <- !app_assoc. reflexivity.
Qed.

(** X11: a response that lacks a level of the path is logged by the
    adapter with the exception of the failed subscript and then flattened
    by the dispatcher; no second request is made. *)
Theorem deepgram_malformed_response_logged api_key path lmp s buffer data :
  new_client w (trace s) DeepgramClient api_key = Returns tt ->
  open_rb w (trace s) path = Returns buffer ->
  transcribe_file w (trace s ++ [EvOpen path; EvClose path]) api_key
                  [("buffer", buffer)] (mk_options "nova-2" true) = Returns data ->
  transcript_path data = None ->
  exists e,
    fst (deepgram_transcript data s) = Raises e
    /\ transcribe_audio w "deepgram" api_key path lmp s
       = (Raises (during e transcription_failed),
          mk_state (checked_fastwhisperapi s)
            (trace s ++ [EvOpen path; EvClose path;
                         EvTranscribeFile api_key [("buffer", buffer)]
                           (mk_options "nova-2" true);
                         deepgram_log e]
             ++ failure_log e)).
Proof.
  intros Hclient Hopen Hfile Hpath.
  pose proof (deepgram_transcript_run data s) as Hrun. rewrite Hpath in Hrun.
  destruct Hrun as [e He]. exists e. split; [now rewrite He|].
  unfold transcribe_audio, try_except at 1.
  change (dispatch w "deepgram" api_key path) with (_transcribe_with_deepgram w api_key path).
  unfold _transcribe_with_deepgram, with_open, try_except, consult, lift, external,
    logging_error, emit, raise, ret, bind.
  cbn [trace checked_fastwhisperapi]. rewrite Hclient, Hopen.
  cbn [trace checked_fastwhisperapi]. rewrite <- app_assoc. cbn [app]. rewrite Hfile.
  match goal with
  | |- context [deepgram_transcript data ?s1] =>
      pose proof (deepgram_transcript_run data s1) as Hrun1; rewrite Hpath in Hrun1;
      pose proof (deepgram_transcript_run data s) as Hrun0; rewrite Hpath in Hrun0
  end.
  destruct Hrun1 as [e1 He1]. destruct Hrun0 as [e0 He0].
  assert (e1 = e) as ->.
  { unfold deepgram_transcript, bind, lift in *.
    repeat match type of He with
           | context [match ?o with _ => _ end] => destruct o
           end; congruence. }
  rewrite He1. rewrite on_failure_run. cbn [trace checked_fastwhisperapi].
  rewrite <- !app_assoc. reflexivity.
Qed.

(** X12: an exception of the [DeepgramClient] constructor is raised
    before the adapter's own [try]: the file is not opened, the adapter
    writes no log entry, and only the dispatcher logs it. *)
Theorem deepgram_client_failure_logged_once api_key path lmp s e :
  new_client w (trace s) DeepgramClient api_key = Raises e ->
  transcribe_audio w "deepgram" api_key path lmp s
  = (Raises (during e transcription_failed),
     mk_state (checked_fastwhisperapi s) (trace s ++ failure_log e)).
Proof.
  intros Hclient.
  unfold transcribe_audio, try_except.
  change (dispatch w "deepgram" api_key path) with (_transcribe_with_deepgram w api_key path).
  unfold _transcribe_with_deepgram, consult, lift, bind. rewrite Hclient.
  apply on_failure_run.
Qed.

(** X13: the Gemini adapter hands back the content of the first choice
    as it is (the sentinel '<empty>' and [None] included) and raises
    [IndexError] on an answer without choices; an exception of the
    completion call is passed on. *)
Theorem gemini_returns_first_choice api_key path s model audio :
  environ w (trace s) "GEMINI_MODEL" = Some model ->
  read_bytes w (trace s) path = Returns audio ->
  fst (_transcribe_with_gemini w api_key path s)
  = match completion w (trace s ++ [EvReadBytes path])
            (mk_completion model api_key
               (gemini_messages (Base64.decode_utf8 (Base64.b64encode audio)))) with
    | Returns (content :: _) => Returns content
    | Returns [] => Raises (mk_exn IndexError "list index out of range")
    | Raises e => Raises e
    end.
Proof.
  intros Henv Hread.
  unfold _transcribe_with_gemini, consult, external, ret, bind.
  cbn [trace checked_fastwhisperapi]. rewrite Henv. cbn [trace checked_fastwhisperapi].
  rewrite Hread. cbn [trace checked_fastwhisperapi].
  destruct (completion w _ _) as [[|content rest]|e]; reflexivity.
Qed.

End AdapterRuns.

Lemma string_of_list_byte_length bs :
  String.length (string_of_list_byte bs) = List.length bs.
Proof.
  unfold string_of_list_byte.
  induction bs as [|b bs IH];
    cbn [map string_of_list_ascii String.length List.length];
    [reflexivity | now rewrite IH].
Qed.

Lemma string_length_app s1 s2 :
  String.length (s1 ++ s2) = String.length s1 + String.length s2.
Proof. induction s1 as [|c s1 IH]; cbn; [reflexivity | now rewrite IH]. Qed.

(** X14: the request determines the audio: two payloads for which the
    adapter builds the same [messages] are the same bytes. *)
Theorem gemini_messages_injective audio1 audio2 :
  gemini_messages (Base64.decode_utf8 (Base64.b64encode audio1))
  = gemini_messages (Base64.decode_utf8 (Base64.b64encode audio2)) ->
  audio1 = audio2.
Proof.
  intros Heq.
  assert (Hbytes : forall audio,
             attachment_bytes (mk_completion "" None
               (gemini_messages (Base64.decode_utf8 (Base64.b64encode audio))))
             = Some audio).
  { intro audio. unfold attachment_bytes.
    change (attachment_of _)
      with (Some (data_url_prefix ++ Base64.decode_utf8 (Base64.b64encode audio))).
    cbn [opt_bind]. rewrite strip_prefix_app. cbn [opt_bind].
    apply Base64Facts.b64decode_b64encode. }
  pose proof (Hbytes audio1) as H1. rewrite Heq, Hbytes in H1. now injection H1.
Qed.

(** X15: the attachment is plain ASCII, so decoding the encoder's output
    as UTF-8 cannot fail, and for [n] bytes of audio the data URL has 22 +
    4 * ceil(n / 3) characters. *)
Theorem gemini_attachment_size audio :
  Forall (fun c => (Byte.to_N c < 128)%N) (Base64.b64encode audio)
  /\ N.of_nat (String.length
                 (data_url_prefix ++ Base64.decode_utf8 (Base64.b64encode audio)))
     = (22 + 4 * ((N.of_nat (List.length audio) + 2) / 3))%N.
Proof.
  split; [apply Base64Facts.b64encode_ascii|].
  rewrite string_length_app. unfold Base64.decode_utf8.
  rewrite string_of_list_byte_length, Nat2N.inj_add, Base64Facts.b64encode_length.
  reflexivity.
Qed.

(* ================================================================== *)
(** * More runs in the sample worlds *)
(* ================================================================== *)

Lemma openai_returns_text_and_closes_witness :
  _transcribe_with_openai (world_up PyNone) (Some "sk-1") "question.wav" init_state
  = (Returns (PyStr "hello"),
     mk_state false
       [EvOpen "question.wav";
        EvTranscriptionsCreate OpenAI (Some "sk-1")
          (mk_transcription_request "whisper-1" ("question.wav", sample_audio) "en");
        EvClose "question.wav"]).
Proof.
  rewrite (openai_returns_text_and_closes (world_up PyNone) (Some "sk-1") "question.wav"
             init_state sample_audio eq_refl eq_refl).
  reflexivity.
Defined.

Lemma groq_returns_text_and_closes_witness :
  _transcribe_with_groq world_no_backend (Some "gsk-1") "question.wav" init_state
  = (unreachable,
     mk_state false
       [EvOpen "question.wav";
        EvTranscriptionsCreate Groq (Some "gsk-1")
          (mk_transcription_request "whisper-large-v3" ("question.wav", sample_audio) "ta");
        EvClose "question.wav"]).
Proof.
  rewrite (groq_returns_text_and_closes world_no_backend (Some "gsk-1") "question.wav"
             init_state sample_audio eq_refl eq_refl).
  reflexivity.
Defined.

Lemma deepgram_request_failure_logged_twice_witness :
  transcribe_file world_no_backend [EvOpen "question.wav"; EvClose "question.wav"]
    (Some "dg-key") [("buffer", sample_audio)] (mk_options "nova-2" true) = unreachable
  /\ List.length
       (filter (fun ev => match ev with EvLogError _ => true | _ => false end)
          (trace (after (transcribe_audio world_no_backend "deepgram" (Some "dg-key")
                           "question.wav" None) init_state))) = 2.
Proof.
  split; [reflexivity|]. unfold after.
  rewrite (deepgram_request_failure_logged_twice world_no_backend (Some "dg-key")
             "question.wav" None init_state sample_audio
             (mk_exn (LibraryError "requests.exceptions.ConnectionError")
                "connection refused") eq_refl eq_refl eq_refl).
  reflexivity.
Defined.

Lemma deepgram_malformed_response_logged_witness :
  transcript_path (PyDict [("metadata", PyDict [])]) = None
  /\ exists e,
       fst (deepgram_transcript (PyDict [("metadata", PyDict [])]) init_state) = Raises e
       /\ In (deepgram_log e)
             (trace (after (transcribe_audio world_bad_reply "deepgram" (Some "dg-key")
                              "question.wav" None) init_state)).
Proof.
  split; [reflexivity|].
  destruct (deepgram_malformed_response_logged world_bad_reply (Some "dg-key")
              "question.wav" None init_state sample_audio
              (PyDict [("metadata", PyDict [])]) eq_refl eq_refl eq_refl eq_refl)
    as (e & He & Hrun).
  exists e. split; [exact He|].
  unfold after. rewrite Hrun. cbn. auto.
Defined.

Lemma deepgram_client_failure_logged_once_witness :
  trace (after (transcribe_audio world_no_client "deepgram" None "question.wav" None)
           init_state)
  = failure_log (mk_exn (LibraryError "deepgram.DeepgramApiKeyError")
                   "Deepgram API key is required").
Proof.
  unfold after.
  rewrite (deepgram_client_failure_logged_once world_no_client None "question.wav" None
             init_state _ eq_refl).
  reflexivity.
Defined.

Lemma gemini_returns_first_choice_witness :
  environ (world_up PyNone) [] "GEMINI_MODEL" = Some "gemini/gemini-1.5-flash-002"
  /\ fst (_transcribe_with_gemini (world_up PyNone) (Some "g-key") "question.mp3" init_state)
     = Returns (PyStr "<empty>").
Proof.
  split; [reflexivity|].
  rewrite (gemini_returns_first_choice (world_up PyNone) (Some "g-key") "question.mp3"
             init_state "gemini/gemini-1.5-flash-002" sample_audio eq_refl eq_refl).
  reflexivity.
Defined.

Lemma gemini_messages_injective_witness :
  gemini_messages (Base64.decode_utf8 (Base64.b64encode sample_audio))
  = gemini_messages "UklGRgD/EA=="
  /\ sample_audio = ["R"; "I"; "F"; "F"; x00; xff; x10]%byte.
Proof.
  split; [reflexivity|].
  apply (gemini_messages_injective sample_audio ["R"; "I"; "F"; "F"; x00; xff; x10]%byte).
  reflexivity.
Defined.
